(** * My-Website: request routing and homepage composition of [server.js]

    A shallow embedding of the Express middleware registered by [serve]
    in [src/server.js] (lines 89-174): the tenant resolver, the analytics
    recorder, the static fallback and the homepage composer, together
    with the part of the schema provisioner ([db], line 81) that the
    analytics recorder depends on.

    Strings are Rocq strings, nullable [varchar] columns are
    [option string] ([None] is SQL/JS [null]), the database is a record
    of row lists, and the asynchronous callbacks of the composer are made
    explicit: the per-section project queries complete in an order that
    is an input of the model. *)

From Stdlib Require Import ZArith Ascii String.
From stdpp Require Import base list strings.

Open Scope string_scope.

(** ** Strings *)

Module Str.

(** The double quote character, as a one-character string. *)
Definition dq : string := String "034"%char EmptyString.

(** [String.prototype.split] with a one-character separator: the
    result is never empty, and a separator at either end gives an
    empty piece. *)
Fixpoint split (sep : ascii) (s : string) : list string :=
  match s with
  | EmptyString => [EmptyString]
  | String c s' =>
      if Ascii.eqb c sep then EmptyString :: split sep s'
      else match split sep s' with
           | [] => [String c EmptyString]
           | w :: ws => String c w :: ws
           end
  end.

(** [Array.prototype.join] on an array of strings. *)
Fixpoint join (sep : string) (l : list string) : string :=
  match l with
  | [] => EmptyString
  | [x] => x
  | x :: rest => x +:+ sep +:+ join sep rest
  end.

(** Concatenation of a list of strings. *)
Definition concat (l : list string) : string :=
  fold_right String.append EmptyString l.

(** Does character [c] occur in [s]? *)
Fixpoint mem (c : ascii) (s : string) : bool :=
  match s with
  | EmptyString => false
  | String d s' => Ascii.eqb d c || mem c s'
  end.

(** Number of positions of [s] at which [pat] starts. *)
Fixpoint count (pat s : string) : nat :=
  match s with
  | EmptyString => 0
  | String _ s' => (if String.prefix pat s then 1 else 0) + count pat s'
  end.

(** The last character of a string, if any. *)
Fixpoint last (s : string) : option ascii :=
  match s with
  | EmptyString => None
  | String c EmptyString => Some c
  | String _ s' => last s'
  end.

(** The first [n] characters ([varchar(n)] keeps at most [n]). *)
Definition take (n : nat) (s : string) : string := String.substring 0 n s.

(** First position at which [pat] starts in [s]: the text before it
    and the text after it. *)
Fixpoint cut (pat s : string) : option (string * string) :=
  if String.prefix pat s
  then Some (EmptyString, String.substring (String.length pat) (String.length s) s)
  else match s with
       | EmptyString => None
       | String c s' =>
           match cut pat s' with
           | Some (before, after) => Some (String c before, after)
           | None => None
           end
       end.

End Str.

(** ** JavaScript values of the columns the server reads *)

Module Js.

(** A nullable string column as JavaScript sees it: [null] or a string. *)
Definition value := option string.

(** Interpolation in a template literal: [null] prints as the four
    letters null. *)
Definition to_string (v : value) : string :=
  match v with
  | Some s => s
  | None => "null"
  end.

(** Truthiness in a conditional: [null] and the empty string are falsy. *)
Definition truthy (v : value) : bool :=
  match v with
  | Some EmptyString => false
  | Some _ => true
  | None => false
  end.

End Js.

(** ** [path.join] (POSIX) *)

Module Path.

Definition slash : ascii := "/"%char.

(** One step of [normalizeString]: the stack holds the kept segments,
    last first. *)
Definition push_segment (allowAboveRoot : bool) (stack : list string) (seg : string)
  : list string :=
  if decide (seg = EmptyString) then stack
  else if decide (seg = ".") then stack
  else if decide (seg = "..") then
    match stack with
    | top :: below =>
        if decide (top = "..") then
          (if allowAboveRoot then seg :: stack else stack)
        else below
    | [] => if allowAboveRoot then [seg] else []
    end
  else seg :: stack.

Definition normalizeString (p : string) (allowAboveRoot : bool) : string :=
  Str.join "/" (rev (fold_left (push_segment allowAboveRoot) (Str.split slash p) [])).

Definition isAbsolute (p : string) : bool :=
  match p with
  | String c _ => Ascii.eqb c slash
  | EmptyString => false
  end.

Definition trailingSeparator (p : string) : bool :=
  match Str.last p with
  | Some c => Ascii.eqb c slash
  | None => false
  end.

Definition normalize (p : string) : string :=
  if decide (p = EmptyString) then "."
  else
    let abs := isAbsolute p in
    let trailing := trailingSeparator p in
    let q := normalizeString p (negb abs) in
    if decide (q = EmptyString) then
      (if abs then "/" else if trailing then "./" else ".")
    else
      let q := if trailing then q +:+ "/" else q in
      if abs then "/" +:+ q else q.

(** [path.join(...args)]: the non-empty arguments joined by a slash,
    then normalised; no non-empty argument gives the current directory. *)
Definition join (args : list string) : string :=
  match filter (fun a => a <> EmptyString) args with
  | [] => "."
  | parts => normalize (Str.join "/" parts)
  end.

End Path.

(** ** The database: rows, statements and their meaning *)

Module Sql.

(** [sections (id int not null auto_increment, title varchar(128),
    primary key(id))], line 79. *)
Record section := { s_id : Z; s_title : Js.value }.

(** [projects (id, section, title varchar(128), url varchar(64),
    repo varchar(256), primary key(id))], line 80. *)
Record project := {
  p_id : Z;
  p_section : Z;
  p_title : Js.value;
  p_url : Js.value;
  p_repo : Js.value
}.

(** [analytics (hash varchar(256) not null, url varchar(128))], line 81. *)
Record event := { a_hash : string; a_url : string }.

Inductive column := Hash | Url.

Definition field (c : column) (r : event) : string :=
  match c with
  | Hash => a_hash r
  | Url => a_url r
  end.

(** What a [create table] statement fixes about the analytics table
    beyond its columns: the widths and the columns under a primary key
    or unique index. *)
Record schema := {
  hash_width : nat;
  url_width : nat;
  unique_keys : list column
}.

(** The table as line 81 creates it: two columns, no primary key and
    no unique index. *)
Definition analytics_schema : schema :=
  {| hash_width := 256; url_width := 128; unique_keys := [] |}.

Record database := {
  sections : list section;
  projects : list project;
  analytics : list event
}.

(** The statements the middleware sends.  Values that the source passes
    through [db.escape] are kept as values: escaping followed by the
    server's parsing of the literal is the identity on them. *)
Inductive statement :=
| InsertIgnoreAnalytics (hash url : string)
| SelectSections
| SelectProjects (section_id : Z).

(** Does [r] collide with a stored row on some unique key? *)
Definition duplicate_key (sch : schema) (r : event) (rows : list event) : bool :=
  existsb (fun k => existsb (fun r' => String.eqb (field k r') (field k r)) rows)
          (unique_keys sch).

(** [insert ignore]: an over-long value is cut to the column width, a
    row that collides on a unique key is dropped, and neither is an
    error; any other row is appended. *)
Definition insert_ignore (sch : schema) (hash url : string) (rows : list event)
  : list event :=
  let r := {| a_hash := Str.take (hash_width sch) hash;
              a_url := Str.take (url_width sch) url |} in
  if duplicate_key sch r rows then rows else rows ++ [r].

(** [select * from projects where section = id]. *)
Definition select_projects (d : database) (id : Z) : list project :=
  filter (fun p => p_section p = id) (projects d).

Definition is_insert (st : statement) : bool :=
  match st with
  | InsertIgnoreAnalytics _ _ => true
  | _ => false
  end.

End Sql.

(** ** Rendering of one section (lines 108-128) *)

Module Render.
Import Sql.

(** [`<h2>${section.title}</h2>`], line 109. *)
Definition heading (s : section) : string :=
  "<h2>" +:+ Js.to_string (s_title s) +:+ "</h2>".

(** [`<ul class="projects">`], line 113. *)
Definition ul_open : string :=
  "<ul class=" +:+ Str.dq +:+ "projects" +:+ Str.dq +:+ ">".

(** [`</ul>`], line 123. *)
Definition ul_close : string := "</ul>".

(** [title], line 116. *)
Definition title (p : project) : string :=
  "<span>" +:+ Js.to_string (p_title p) +:+ "</span>".

(** The opening tag written for a repository, line 117. *)
Definition github_tag (href : string) : string :=
  "<a class=" +:+ Str.dq +:+ "github" +:+ Str.dq +:+ " href=" +:+ Str.dq +:+ href
    +:+ Str.dq +:+ " target=" +:+ Str.dq +:+ "_blank" +:+ Str.dq +:+ ">".

(** The anchor written for a url, line 118. *)
Definition link_tag (href : string) : string :=
  "<a class=" +:+ Str.dq +:+ "link" +:+ Str.dq +:+ " href=" +:+ Str.dq +:+ href
    +:+ Str.dq +:+ "></a>".

(** [repo], line 117. *)
Definition repo (p : project) : string :=
  if Js.truthy (p_repo p) then github_tag (Js.to_string (p_repo p)) else EmptyString.

(** [url], line 118. *)
Definition url (p : project) : string :=
  if Js.truthy (p_url p) then link_tag (Js.to_string (p_url p)) else EmptyString.

Definition li_open : string :=
  "<li><div class=" +:+ Str.dq +:+ "wrapper" +:+ Str.dq +:+ ">".

Definition li_close : string := "</div></li>".

(** The text appended for one project, line 120. *)
Definition list_item (p : project) : string :=
  li_open +:+ title p +:+ repo p +:+ url p +:+ li_close.

(** The [for ... of] loop of lines 115-121: [html += ...] once per row. *)
Definition project_loop (html : string) (ps : list project) : string :=
  fold_left (fun html p => html +:+ list_item p) ps html.

(** The callback of the projects query, lines 109-126: the string the
    section's promise resolves with. *)
Definition fragment (s : section) (ps : list project) : string :=
  let html := heading s in
  if Nat.eqb (length ps) 0 then html
  else project_loop (html +:+ ul_open) ps +:+ ul_close.

End Render.

(** ** The middleware of [serve] (lines 92-157) *)

Module Server.
Import Sql.

(** What the middleware reads of an Express request that carries a
    host name. *)
Record request := { ip : string; hostname : string; path : string }.

(** What the middleware observes of the filesystem: [fs.existsSync]
    and [fs.readFileSync] ([None] when the read throws). *)
Record filesystem := {
  existsSync : string -> bool;
  readFileSync : string -> option string
}.

(** The shared connection: the stored rows and the statements that
    fail on it (the callback of a failed query receives an error and
    no rows). *)
Record connection := {
  data : database;
  fails : statement -> bool
}.

(** The part of node-html-parser the composer calls.  [set_content]
    mutates the tree the document points to, hence returns it. *)
Class HtmlParser := {
  document : Type;
  element : Type;
  parse : string -> document;
  querySelector : document -> string -> option element;
  set_content : element -> string -> document -> document;
  innerHTML : document -> string
}.

Inductive error :=
| TypeError    (* a property read or method call on undefined or null *)
| SystemError. (* thrown by fs.readFileSync *)

(** How the handling of one request ends. *)
Inductive outcome :=
| Sent (status : nat) (contentType : option string) (body : string)
    (* the middleware itself sent a response *)
| Delegated (dir : string)
    (* express.static(dir)(req, res, next) answers *)
| Thrown (e : error)
    (* thrown synchronously in the middleware: Express's error handler answers *)
| Uncaught (e : error)
    (* thrown in a query callback: nothing catches it, nothing is sent *)
| Rejected (e : error)
    (* thrown in the [then] callback: the promise rejects, nothing is sent *)
| Pending.
    (* some project query has not completed: nothing is sent yet *)

(** Did the middleware's own code send a response? *)
Definition responded (o : outcome) : bool :=
  match o with
  | Sent _ _ _ => true
  | _ => false
  end.

(** Is the outcome a server-error response (status 5xx)? *)
Definition server_error (o : outcome) : bool :=
  match o with
  | Sent status _ _ => (500 <=? status)%nat && (status <? 600)%nat
  | _ => false
  end.

Record result := {
  issued : list statement;   (* statements passed to db.query, in order *)
  final : database;          (* the stored rows afterwards *)
  ending : outcome
}.

(** [db.query] for the three statements. *)
Definition query_sections (c : connection) : option (list section) :=
  if fails c SelectSections then None else Some (sections (data c)).

Definition query_projects (c : connection) (id : Z) : option (list project) :=
  if fails c (SelectProjects id) then None else Some (select_projects (data c) id).

Definition query_insert (c : connection) (hash url : string) : connection :=
  if fails c (InsertIgnoreAnalytics hash url) then c
  else {| data := {| sections := sections (data c);
                     projects := projects (data c);
                     analytics := insert_ignore analytics_schema hash url
                                                (analytics (data c)) |};
          fails := fails c |}.

(** The callback of one projects query (lines 111-127): reading
    [projects.length] of an absent result throws. *)
Definition projects_callback (c : connection) (s : section) : error + string :=
  match query_projects c (s_id s) with
  | None => inl TypeError
  | Some ps => inr (Render.fragment s ps)
  end.

(** One project query completes: the promise of section [i] resolves
    and [Promise.all] stores the value in slot [i].  An index with no
    pending query changes nothing. *)
Definition settle (c : connection) (secs : list section)
           (slots : list (option string)) (i : nat) : error + list (option string) :=
  match secs !! i, slots !! i with
  | Some s, Some None =>
      match projects_callback c s with
      | inl e => inl e
      | inr html => inr (<[i := Some html]> slots)
      end
  | _, _ => inr slots
  end.

(** The completions in the order they happen. *)
Fixpoint fan_in (c : connection) (secs : list section)
         (slots : list (option string)) (order : list nat)
  : error + list (option string) :=
  match order with
  | [] => inr slots
  | i :: rest =>
      match settle c secs slots i with
      | inl e => inl e
      | inr slots' => fan_in c secs slots' rest
      end
  end.

(** [Promise.all] fulfils with the array of values once every slot is
    filled. *)
Fixpoint fulfilled (slots : list (option string)) : option (list string) :=
  match slots with
  | [] => Some []
  | None :: _ => None
  | Some v :: rest =>
      match fulfilled rest with
      | Some vs => Some (v :: vs)
      | None => None
      end
  end.

Section Middleware.
Context {html_parser : HtmlParser}.
Variable fs : filesystem.

(** The [then] callback of lines 130-134. *)
Definition respond (doc : document) (sectionsElement : option element)
           (html : list string) : outcome :=
  match sectionsElement with
  | None => Rejected TypeError
  | Some el =>
      Sent 200%nat (Some "text/html")
           (innerHTML (set_content el (Str.join "<br/>" html) doc))
  end.

(** The callback of the sections query (lines 107-135), followed by
    the completions of the project queries in the given order. *)
Definition sections_callback (doc : document) (sectionsElement : option element)
           (c : connection) (order : list nat) : list statement * outcome :=
  match query_sections c with
  | None => ([], Uncaught TypeError)
  | Some secs =>
      let sent := map (fun s => SelectProjects (s_id s)) secs in
      match fan_in c secs (replicate (length secs) None) order with
      | inl e => (sent, Uncaught e)
      | inr slots =>
          match fulfilled slots with
          | None => (sent, Pending)
          | Some html => (sent, respond doc sectionsElement html)
          end
      end
  end.

(** [staticHandler], lines 100-140. *)
Definition staticHandler (req : request) (c : connection) (order : list nat)
           (dir : string) : list statement * outcome :=
  if decide (path req = "/") then
    match readFileSync fs (Path.join [dir; "index.html"]) with
    | None => ([], Thrown SystemError)
    | Some html =>
        let doc := parse html in
        let sectionsElement := querySelector doc "#sections" in
        let '(sent, o) := sections_callback doc sectionsElement c order in
        (SelectSections :: sent, o)
    end
  else ([], Delegated dir).

(** [domain], line 93. *)
Definition domain (req : request) : string :=
  hd EmptyString (Str.split "."%char (hostname req)).

(** The analytics recorder, lines 95-97. *)
Definition record_visit (req : request) (c : connection)
  : list statement * connection :=
  if decide (ip req = "::1") then ([], c)
  else
    let hash := ip req +:+ "@" +:+ hostname req +:+ path req in
    let url := hostname req +:+ path req in
    ([InsertIgnoreAnalytics hash url], query_insert c hash url).

(** The tenant resolver, lines 143-156. *)
Definition route (req : request) (c : connection) (order : list nat)
  : list statement * outcome :=
  let domain := domain req in
  if decide (domain = "jessesolomon") then staticHandler req c order "public"
  else if decide (domain = "localhost") then staticHandler req c order "public"
  else
    let appPath := Path.join ["apps"; domain] in
    if existsSync fs appPath then staticHandler req c order appPath
    else ([], Sent 404%nat None EmptyString).

(** The whole middleware for one request: [order] lists the indices
    of the project queries in the order their callbacks run. *)
Definition middleware (req : request) (c : connection) (order : list nat) : result :=
  let '(logged, c') := record_visit req c in
  let '(sent, o) := route req c' order in
  {| issued := logged ++ sent; final := data c'; ending := o |}.

End Middleware.

(** A parser for templates with at most one [<div id="sections">]
    container, kept as the text before it, its content and the text
    after it. *)
Record template := {
  before : string;
  inner : option string;
  after : string
}.

Definition container_open : string :=
  "<div id=" +:+ Str.dq +:+ "sections" +:+ Str.dq +:+ ">".

Definition container_close : string := "</div>".

Definition parse_template (text : string) : template :=
  match Str.cut container_open text with
  | Some (b, rest) =>
      match Str.cut container_close rest with
      | Some (i, a) => {| before := b; inner := Some i; after := a |}
      | None => {| before := text; inner := None; after := EmptyString |}
      end
  | None => {| before := text; inner := None; after := EmptyString |}
  end.

Definition template_html (t : template) : string :=
  match inner t with
  | Some i => before t +:+ container_open +:+ i +:+ container_close +:+ after t
  | None => before t
  end.

#[export] Instance template_parser : HtmlParser := {|
  document := template;
  element := unit;
  parse := parse_template;
  querySelector := fun doc sel =>
    if decide (sel = "#sections") then
      match inner doc with Some _ => Some tt | None => None end
    else None;
  set_content := fun _ html doc =>
    {| before := before doc; inner := Some html; after := after doc |};
  innerHTML := template_html
|}.

End Server.

(** ** Text without markup *)

Module Plain.
Import Sql.

(** A text that holds no opening angle bracket starts no tag. *)
Definition text (s : string) : Prop := Str.mem "<"%char s = false.

Definition section (s : Sql.section) : Prop :=
  text (Js.to_string (s_title s)).

Definition project (p : Sql.project) : Prop :=
  text (Js.to_string (p_title p))
  /\ text (Js.to_string (p_repo p))
  /\ text (Js.to_string (p_url p)).

End Plain.

(** ** The fan-in against the stored rows *)

Module FanIn.
Import Sql Server.

(** The fragment of a section computed from the rows stored for it. *)
Definition section_html (c : connection) (s : section) : string :=
  Render.fragment s (select_projects (data c) (s_id s)).

(** No project query of the listed sections fails. *)
Definition queries_succeed (c : connection) (secs : list section) : bool :=
  forallb (fun s => negb (fails c (SelectProjects (s_id s)))) secs.

(** Slot [j] of [Promise.all] holds a value. *)
Definition filled (slots : list (option string)) (j : nat) : Prop :=
  exists v, slots !! j = Some (Some v).

(** One slot per section, each either still empty or holding that
    section's fragment. *)
Definition aligned (c : connection) (secs : list section)
           (slots : list (option string)) : Prop :=
  length slots = length secs
  /\ forall j s, secs !! j = Some s ->
       slots !! j = Some None \/ slots !! j = Some (Some (section_html c s)).

(** The slot of a section whose project query fails is never filled. *)
Definition failing_empty (c : connection) (secs : list section)
           (slots : list (option string)) : Prop :=
  length slots = length secs
  /\ forall j s, secs !! j = Some s ->
       fails c (SelectProjects (s_id s)) = true -> slots !! j = Some None.

(** Every project query appears among the completions. *)
Definition complete (order : list nat) (secs : list section) : bool :=
  forallb (fun j => existsb (Nat.eqb j) order) (seq 0 (length secs)).

End FanIn.

(** ** Tags looked for in the rendered text *)

Module Tag.

(** The opening tag of a list item, of an unordered list and of any
    anchor, and the closing tags of a list and of an anchor. *)
Definition li : string := "<li>".
Definition ul : string := "<ul".
Definition ul_end : string := "</ul>".
Definition a : string := "<a ".
Definition a_end : string := "</a>".

(** The start of the anchor of the github affordance (line 117) and of
    the link affordance (line 118). *)
Definition github : string :=
  Eval cbv in "<a class=" +:+ Str.dq +:+ "github" +:+ Str.dq.
Definition link : string :=
  Eval cbv in "<a class=" +:+ Str.dq +:+ "link" +:+ Str.dq.

End Tag.

(** ** Concrete rows, files and requests *)

Module Scenario.
Import Sql Server.

Definition tools : section := {| s_id := 1; s_title := Some "Tools" |}.

Definition widget : project :=
  {| p_id := 1; p_section := 1; p_title := Some "Widget";
     p_url := Some "http://w"; p_repo := None |}.

(** A project with both a repository and a url. *)
Definition gadget : project :=
  {| p_id := 2; p_section := 1; p_title := Some "Gadget";
     p_url := Some "http://g"; p_repo := Some "http://github.com/g" |}.

(** A section without projects. *)
Definition games : section := {| s_id := 2; s_title := Some "Games" |}.

Definition store : database :=
  {| sections := [tools]; projects := [widget]; analytics := [] |}.

Definition two_sections : database :=
  {| sections := [tools; games]; projects := [widget; gadget]; analytics := [] |}.

Definition healthy (d : database) : connection :=
  {| data := d; fails := fun _ => false |}.

(** A connection on which every [select] fails. *)
Definition broken (d : database) : connection :=
  {| data := d; fails := fun st => negb (is_insert st) |}.

(** A connection on which only the project queries fail. *)
Definition flaky (d : database) : connection :=
  {| data := d;
     fails := fun st => match st with SelectProjects _ => true | _ => false end |}.

Definition tools_content : string :=
  "<h2>Tools</h2><ul class=" +:+ Str.dq +:+ "projects" +:+ Str.dq
    +:+ "><li><div class=" +:+ Str.dq +:+ "wrapper" +:+ Str.dq
    +:+ "><span>Widget</span><a class=" +:+ Str.dq +:+ "link" +:+ Str.dq
    +:+ " href=" +:+ Str.dq +:+ "http://w" +:+ Str.dq
    +:+ "></a></div></li></ul>".

Definition index_html : string :=
  "<html><body><div id=" +:+ Str.dq +:+ "sections" +:+ Str.dq
    +:+ ">loading</div></body></html>".

(** The same page without the container. *)
Definition bare_html : string := "<html><body></body></html>".

(** [public/index.html] and the directory [apps/blog] with its own
    [index.html], which lacks the container. *)
Definition disk : filesystem :=
  {| existsSync := fun p =>
       String.eqb p "public" || String.eqb p "public/index.html"
       || String.eqb p "apps" || String.eqb p "apps/blog"
       || String.eqb p "apps/blog/index.html";
     readFileSync := fun p =>
       if String.eqb p "public/index.html" then Some index_html
       else if String.eqb p "apps/blog/index.html" then Some bare_html
       else None |}.

Definition home : request :=
  {| ip := "203.0.113.7"; hostname := "jessesolomon.dev"; path := "/" |}.

Definition blog_home : request :=
  {| ip := "203.0.113.7"; hostname := "blog.jessesolomon.dev"; path := "/" |}.

Definition about : request :=
  {| ip := "203.0.113.7"; hostname := "jessesolomon.dev"; path := "/about" |}.

Definition unknown : request :=
  {| ip := "203.0.113.7"; hostname := "nobody.jessesolomon.dev"; path := "/" |}.

Definition self : request :=
  {| ip := "::1"; hostname := "localhost"; path := "/" |}.

End Scenario.

(** ** Startup: [env], [db] and the listeners of [serve] *)

From stdpp Require Import gmap.

Module Json.

(** What [JSON.parse] returns.  A number is kept as its literal: the
    server only ever asks for its type. *)
#[local] Unset Elimination Schemes.
Inductive value :=
| JNull
| JBool (b : bool)
| JNumber (literal : string)
| JString (s : string)
| JArray (items : list value)
| JObject (fields : list (string * value)).
#[local] Set Elimination Schemes.


End Json.

(** [env], lines 14-45.  The text of [.env] is taken as ASCII: on other
    text the character classes of the regular expressions differ from
    the ones below, and the loader is left unmodelled. *)

Module Env.
Import Json.

Definition LF : ascii := "010"%char.
Definition CR : ascii := "013"%char.

Definition between (lo hi : nat) (c : ascii) : bool :=
  (lo <=? nat_of_ascii c)%nat && (nat_of_ascii c <=? hi)%nat.

(** [\w]: a letter, a digit or the underscore. *)
Definition is_word (c : ascii) : bool :=
  between 48 57 c || between 65 90 c || between 97 122 c || Ascii.eqb c "_".

(** [\s], and what [trim] removes: tab, line feed, vertical tab, form
    feed, carriage return and space. *)
Definition is_space (c : ascii) : bool :=
  between 9 13 c || Ascii.eqb c " ".

(** [.]: any character but a line terminator. *)
Definition is_dot (c : ascii) : bool :=
  negb (Ascii.eqb c LF || Ascii.eqb c CR).

Fixpoint ascii_text (s : string) : bool :=
  match s with
  | EmptyString => true
  | String c rest => (nat_of_ascii c <? 128)%nat && ascii_text rest
  end.

(** [text.split(/\n\r?/g)], line 24: a line ends at a line feed, and a
    carriage return right after that line feed is dropped with it. *)
Fixpoint lines (s : string) : list string :=
  match s with
  | EmptyString => [EmptyString]
  | String c rest =>
      if Ascii.eqb c LF then
        EmptyString
          :: match rest with
             | String d rest' => if Ascii.eqb d CR then lines rest' else lines rest
             | EmptyString => lines rest
             end
      else
        match lines rest with
        | [] => [String c EmptyString]
        | w :: ws => String c w :: ws
        end
  end.

Definition head_is_dot (s : string) : bool :=
  match s with
  | String c _ => is_dot c
  | EmptyString => false
  end.

(** What the scan has just read: nothing of use, a run of word
    characters, or such a run followed by spaces. *)
Inductive seen := Nothing | WordRun | WordGap.

(** [/\w+\s*=.+/g.test(line)], line 25: somewhere in the line a run of
    word characters, then spaces if any, then an equals sign followed by
    a character that is not a line terminator. *)
Fixpoint test (st : seen) (s : string) : bool :=
  match s with
  | EmptyString => false
  | String c rest =>
      if Ascii.eqb c "=" then
        match st with
        | Nothing => test Nothing rest
        | _ => head_is_dot rest || test Nothing rest
        end
      else if is_word c then test WordRun rest
      else if is_space c then
        test (match st with Nothing => Nothing | _ => WordGap end) rest
      else test Nothing rest
  end.

(** The longest run of characters matched by [.+]. *)
Fixpoint dot_run (s : string) : string :=
  match s with
  | EmptyString => EmptyString
  | String c rest => if is_dot c then String c (dot_run rest) else EmptyString
  end.

(** The first two pieces of [line.split(/=(.+)/)], line 26: the text
    before the first equals sign that some character follows on its
    line, and the run of characters captured after it.  Without such a
    sign the one piece is the whole line. *)
Fixpoint split_assignment (s : string) : string * option string :=
  match s with
  | EmptyString => (EmptyString, None)
  | String c rest =>
      if Ascii.eqb c "=" && head_is_dot rest then (EmptyString, Some (dot_run rest))
      else let '(k, v) := split_assignment rest in (String c k, v)
  end.

Fixpoint trim_left (s : string) : string :=
  match s with
  | String c rest => if is_space c then trim_left rest else s
  | EmptyString => EmptyString
  end.

Fixpoint trim_right (s : string) : string :=
  match s with
  | EmptyString => EmptyString
  | String c rest =>
      match trim_right rest with
      | EmptyString => if is_space c then EmptyString else String c EmptyString
      | kept => String c kept
      end
  end.

(** [String.prototype.trim]. *)
Definition trim (s : string) : string := trim_right (trim_left s).

(** [pair], lines 26 and 29: the trimmed key and the trimmed value,
    which is undefined when the line was not split. *)
Definition pair (line : string) : string * option string :=
  let '(k, v) := split_assignment line in (trim k, option_map trim v).

(** [pairs], lines 23-26. *)
Definition pairs (text : string) : list (string * option string) :=
  map pair (List.filter (test Nothing) (lines text)).

(** A property of the [env] object: a parsed setting, or the function
    stored under [require]. *)
Inductive property := Setting (v : value) | RequireFunction.

Inductive prototype := ObjectPrototype | NullPrototype.

(** The [env] object: its own properties and its prototype. *)
Record object := {
  own : gmap string property;
  proto : prototype
}.





(** What startup can fail with. *)
Inductive failure :=
| EnvironmentError (message : string)
| SyntaxError      (* thrown by JSON.parse *)
| SystemError.     (* thrown by fs.readFileSync *)

(** [new EnvironmentError(error)], lines 15-19. *)
Definition environment_error (error : string) : failure :=
  EnvironmentError ("Invalid Environment: " +:+ error).


(** How the promise of [env] settles.  [Unmodelled] stands for the
    inputs left out: text that is not ASCII, and a line that gives
    [__proto__] an object or an array, after which [env] inherits from
    that value. *)
Inductive loaded :=
| Resolved (o : object)
| Rejected (e : failure)
| Unmodelled.

Definition put (key : string) (p : property) (o : object) : object :=
  {| own := <[key := p]> (own o); proto := proto o |}.

(** [env[key] = value], line 31.  On an object that still inherits from
    [Object.prototype], [__proto__] is the inherited accessor: null
    removes the prototype, another primitive value is ignored. *)
Definition assign (key : string) (v : value) (o : object) : option object :=
  if decide (key = "__proto__") then
    match proto o with
    | NullPrototype => Some (put key (Setting v) o)
    | ObjectPrototype =>
        match v with
        | JNull => Some {| own := own o; proto := NullPrototype |}
        | JArray _ | JObject _ => None
        | _ => Some o
        end
    end
  else Some (put key (Setting v) o).

Section Load.
(** [JSON.parse], with [None] when it throws. *)
Variable JSON_parse : string -> option value.

(** [JSON.parse(value)], line 31: an undefined value is read as the
    text undefined, which is no JSON. *)
Definition parse_value (raw : option string) : option value :=
  match raw with
  | Some text => JSON_parse text
  | None => None
  end.

(** The loop of lines 28-32. *)
Fixpoint assign_all (ps : list (string * option string)) (o : object) : loaded :=
  match ps with
  | [] => Resolved o
  | (key, raw) :: rest =>
      match parse_value raw with
      | None => Rejected SyntaxError
      | Some v =>
          match assign key v o with
          | None => Unmodelled
          | Some o' => assign_all rest o'
          end
      end
  end.

(** [env], lines 14-45. *)
Definition env (fs : Server.filesystem) : loaded :=
  if Server.existsSync fs ".env" then
    match Server.readFileSync fs ".env" with
    | None => Rejected SystemError
    | Some text =>
        if ascii_text text then
          match assign_all (pairs text) {| own := ∅; proto := ObjectPrototype |} with
          | Resolved o => Resolved (put "require" RequireFunction o)
          | other => other
          end
        else Unmodelled
    end
  else Rejected (environment_error "Missing .env").

End Load.

(** Every character of the text satisfies [f]. *)
Fixpoint all (f : ascii -> bool) (s : string) : bool :=
  match s with
  | EmptyString => true
  | String c rest => f c && all f rest
  end.

(** A space or a tab. *)
Definition is_blank (c : ascii) : bool :=
  Ascii.eqb c " " || Ascii.eqb c "009".

Definition first (s : string) : option ascii :=
  match s with
  | String c _ => Some c
  | EmptyString => None
  end.

(** Does the text start and end with characters that [trim] keeps? *)
Definition trimmed (s : string) : bool :=
  match first s, Str.last s with
  | Some a, Some z => negb (is_space a) && negb (is_space z)
  | _, _ => false
  end.

(** The text with Windows line ends: a carriage return before every
    line feed. *)
Fixpoint windows (s : string) : string :=
  match s with
  | EmptyString => EmptyString
  | String c rest =>
      if Ascii.eqb c LF then String CR (String LF (windows rest))
      else String c (windows rest)
  end.


End Env.

(** [db], lines 51-87, and the end of [serve], lines 159-173. *)

Module Startup.
Import Json Env.

(** What [db] does to the MySQL server, in order. *)
Inductive action :=
| Connect (user password : string) (database : option string)
| CreateDatabase (name : string)
    (* `create database if not exists ${env.database_name}` *)
| EndConnection
| CreateSections
| CreateProjects
| CreateAnalytics.










End Startup.

(** ** Concrete settings files *)

Module Boot.
Import Json Env Startup.

(** The text between an opening double quote and the closing one that
    ends the value, when it holds no escape. *)
Fixpoint quoted (s : string) : option string :=
  match s with
  | EmptyString => None
  | String c rest =>
      if Ascii.eqb c "034" then
        (if decide (rest = EmptyString) then Some EmptyString else None)
      else if Ascii.eqb c "092" then None
      else option_map (String c) (quoted rest)
  end.

Fixpoint digits (s : string) : bool :=
  match s with
  | EmptyString => true
  | String c rest => between 48 57 c && digits rest
  end.

(** [JSON.parse] on the values of the files below: a string without
    escapes, true, false, null, or digits.  It stands in for
    [JSON.parse] in the examples only, and takes any other text as a
    syntax error. *)
Definition parse_json (text : string) : option value :=
  if decide (text = "true") then Some (JBool true)
  else if decide (text = "false") then Some (JBool false)
  else if decide (text = "null") then Some JNull
  else
    match text with
    | String c rest =>
        if Ascii.eqb c "034" then option_map JString (quoted rest)
        else if digits text then Some (JNumber text)
        else None
    | EmptyString => None
    end.

Definition newline : string := String LF EmptyString.
Definition crlf : string := String CR (String LF EmptyString).

(** The lines of a development settings file. *)
Definition dev_lines : list string :=
  [ "# local database";
    "database_name = " +:+ Str.dq +:+ "site" +:+ Str.dq;
    "database_password=" +:+ Str.dq +:+ "a=b" +:+ Str.dq;
    EmptyString;
    "port=8080" ].

(** The same file with Unix and with Windows line ends. *)
Definition dev_env : string := Str.join newline dev_lines.
Definition dev_env_crlf : string := Str.join crlf dev_lines.


(** A file whose database name is a number. *)
Definition bad_env : string :=
  "database_name=5" +:+ newline +:+ "database_password="
    +:+ Str.dq +:+ "pw" +:+ Str.dq.

Definition disk_with (text : string) : Server.filesystem :=
  {| Server.existsSync := fun p => String.eqb p ".env";
     Server.readFileSync := fun p =>
       if String.eqb p ".env" then Some text else None |}.

Definition no_env : Server.filesystem :=
  {| Server.existsSync := fun _ => false; Server.readFileSync := fun _ => None |}.

(** The object [env] resolves with for the development file and for
    the production file. *)
Definition dev_object : object :=
  put "require" RequireFunction
    (put "port" (Setting (JNumber "8080"))
       (put "database_password" (Setting (JString "a=b"))
          (put "database_name" (Setting (JString "site"))
             {| own := ∅; proto := ObjectPrototype |}))).


Definition all_succeed : action -> bool := fun _ => false.



End Boot.

(** * Properties *)

(** ** Strings *)

Lemma append_nil_l (a : string) : EmptyString +:+ a = a.
Proof. reflexivity. Qed.

Lemma append_cons (x : ascii) (a b : string) :
  String x a +:+ b = String x (a +:+ b).
Proof. reflexivity. Qed.

Lemma append_assoc (a b c : string) : (a +:+ b) +:+ c = a +:+ (b +:+ c).
Proof.
  induction a as [|x a' IH]; [reflexivity|].
  rewrite !append_cons. now rewrite IH.
Qed.

Lemma append_nil_r (a : string) : a +:+ EmptyString = a.
Proof.
  induction a as [|x a' IH]; [reflexivity|].
  rewrite append_cons. now rewrite IH.
Qed.

Lemma count_cons (pat : string) (c : ascii) (s : string) :
  Str.count pat (String c s)
  = (if String.prefix pat (String c s) then 1 else 0) + Str.count pat s.
Proof. reflexivity. Qed.

(** A pattern that starts with an opening angle bracket starts nowhere
    inside a text without one. *)
Lemma count_plain (pat d s : string) :
  Plain.text d ->
  Str.count (String "<"%char pat) (d +:+ s) = Str.count (String "<"%char pat) s.
Proof.
  unfold Plain.text. induction d as [|x d IH]; [reflexivity|].
  cbn [Str.mem]. intros H. apply orb_false_iff in H as [Hx Hd].
  rewrite append_cons, count_cons. cbn [String.prefix].
  destruct (ascii_dec "<" x) as [<-|_]; [discriminate Hx|].
  now rewrite IH.
Qed.

Lemma count_plain_end (pat d : string) :
  Plain.text d -> Str.count (String "<"%char pat) d = 0.
Proof.
  intros H. rewrite <- (append_nil_r d). now rewrite count_plain.
Qed.

Lemma plain_null : Plain.text (Js.to_string None).
Proof. reflexivity. Qed.

Lemma concat_cons (x : string) (l : list string) :
  Str.concat (x :: l) = x +:+ Str.concat l.
Proof. reflexivity. Qed.

(** ** The loop over the projects appends the items in row order *)

Lemma project_loop_concat (html : string) (ps : list Sql.project) :
  Render.project_loop html ps = html +:+ Str.concat (map Render.list_item ps).
Proof.
  unfold Render.project_loop. revert html.
  induction ps as [|p ps IH]; intros html; cbn [fold_left map].
  - unfold Str.concat. cbn [fold_right]. now rewrite append_nil_r.
  - rewrite IH, concat_cons. apply append_assoc.
Qed.

Lemma fragment_nil (s : Sql.section) : Render.fragment s [] = Render.heading s.
Proof. reflexivity. Qed.

Lemma fragment_cons (s : Sql.section) (p : Sql.project) (ps : list Sql.project) :
  Render.fragment s (p :: ps)
  = Render.heading s +:+ Render.ul_open
      +:+ Str.concat (map Render.list_item (p :: ps)) +:+ Render.ul_close.
Proof.
  unfold Render.fragment. cbn [length Nat.eqb].
  rewrite project_loop_concat. now rewrite !append_assoc.
Qed.

(** ** Counting tags in rendered text *)

Ltac unfold_render :=
  unfold Render.fragment, Render.heading, Render.list_item, Render.li_open,
    Render.li_close, Render.title, Render.repo, Render.url, Render.github_tag,
    Render.link_tag, Render.ul_open, Render.ul_close, Str.dq.

Ltac unfold_tags :=
  unfold Tag.li, Tag.ul, Tag.ul_end, Tag.a, Tag.a_end, Tag.github, Tag.link.

Ltac normalise_text :=
  rewrite ?append_assoc; rewrite ?append_cons, ?append_nil_l.

(** Walks through a text made of literal markup and of plain data,
    deciding at each literal character whether the pattern starts there. *)
Ltac count_tags :=
  repeat first
    [ rewrite count_plain by assumption
    | rewrite count_plain_end by assumption
    | rewrite count_cons; simpl (String.prefix _ _) ].

Ltac count_item p :=
  unfold_tags; unfold_render;
  destruct (Js.truthy (Sql.p_repo p)), (Js.truthy (Sql.p_url p));
  normalise_text; count_tags; reflexivity.

Lemma count_li_item (p : Sql.project) (rest : string) :
  Plain.project p ->
  Str.count Tag.li (Render.list_item p +:+ rest) = S (Str.count Tag.li rest).
Proof. intros (Ht & Hr & Hu). count_item p. Qed.

Lemma count_ul_item (p : Sql.project) (rest : string) :
  Plain.project p ->
  Str.count Tag.ul (Render.list_item p +:+ rest) = Str.count Tag.ul rest.
Proof. intros (Ht & Hr & Hu). count_item p. Qed.

Lemma count_li_items (ps : list Sql.project) (rest : string) :
  Forall Plain.project ps ->
  Str.count Tag.li (Str.concat (map Render.list_item ps) +:+ rest)
  = length ps + Str.count Tag.li rest.
Proof.
  induction 1 as [|p ps Hp _ IH]; [reflexivity|].
  cbn [map length]. rewrite concat_cons, append_assoc, count_li_item by assumption.
  now rewrite IH.
Qed.

Lemma count_ul_items (ps : list Sql.project) (rest : string) :
  Forall Plain.project ps ->
  Str.count Tag.ul (Str.concat (map Render.list_item ps) +:+ rest)
  = Str.count Tag.ul rest.
Proof.
  induction 1 as [|p ps Hp _ IH]; [reflexivity|].
  cbn [map]. rewrite concat_cons, append_assoc, count_ul_item by assumption.
  exact IH.
Qed.

Lemma count_fragment (s : Sql.section) (ps : list Sql.project) :
  Plain.section s -> Forall Plain.project ps ->
  Str.count Tag.ul (Render.fragment s ps) = (if ps is [] then 0 else 1)
  /\ Str.count Tag.li (Render.fragment s ps) = length ps.
Proof.
  intros Hs Hps. unfold Plain.section in Hs.
  destruct ps as [|p ps].
  - rewrite fragment_nil. split.
    all: unfold_tags; unfold_render; normalise_text; count_tags; reflexivity.
  - rewrite fragment_cons. split.
    + unfold Render.heading, Render.ul_open, Str.dq. normalise_text.
      unfold Tag.ul at 1. count_tags. fold Tag.ul.
      rewrite count_ul_items by assumption.
      unfold_tags; unfold_render. count_tags. reflexivity.
    + unfold Render.heading, Render.ul_open, Str.dq. normalise_text.
      unfold Tag.li at 1. count_tags. fold Tag.li.
      rewrite count_li_items by assumption.
      unfold_tags; unfold_render. count_tags. cbn [Str.count length]. lia.
Qed.

(** ** Fan-in: slots are filled by position, whatever the completion order *)

Section FanInOk.
Import Sql Server FanIn.
Variable c : connection.
Variable secs : list section.
Hypothesis Hok : forall s, s ∈ secs -> fails c (SelectProjects (s_id s)) = false.

Lemma projects_callback_ok (s : section) :
  s ∈ secs -> projects_callback c s = inr (section_html c s).
Proof.
  intros Hs. unfold projects_callback, query_projects.
  now rewrite (Hok s Hs).
Qed.

Lemma settle_ok (slots : list (option string)) (i : nat) :
  aligned c secs slots ->
  exists slots',
    settle c secs slots i = inr slots'
    /\ aligned c secs slots'
    /\ (forall j, filled slots j -> filled slots' j)
    /\ (i < length secs -> filled slots' i).
Proof.
  intros [Hlen Hal]. unfold settle.
  destruct (secs !! i) as [s|] eqn:Hs.
  - assert (Hi : i < length secs) by (eapply lookup_lt_Some; eassumption).
    destruct (Hal i s Hs) as [Hempty | Hfull].
    + rewrite Hempty, projects_callback_ok
        by (eapply list_elem_of_lookup_2; eassumption).
      eexists; split; [reflexivity|]. split_and!.
      * split; [now rewrite length_insert|].
        intros j s' Hs'. destruct (decide (j = i)) as [->|Hne].
        -- right. rewrite list_lookup_insert_eq by lia. congruence.
        -- rewrite list_lookup_insert_ne by congruence. now apply Hal.
      * intros j [v Hv]. exists v.
        rewrite list_lookup_insert_ne; [assumption | congruence].
      * intros _. eexists. now rewrite list_lookup_insert_eq by lia.
    + rewrite Hfull. eexists; split; [reflexivity|]. split_and!.
      * now split.
      * auto.
      * intros _. eexists; eassumption.
  - exists slots. split_and!.
    * destruct (slots !! i) as [[?|]|]; reflexivity.
    * now split.
    * auto.
    * intros Hi. apply lookup_ge_None in Hs. lia.
Qed.

Lemma fan_in_ok (order : list nat) (slots : list (option string)) :
  aligned c secs slots ->
  exists slots',
    fan_in c secs slots order = inr slots'
    /\ aligned c secs slots'
    /\ (forall j, filled slots j -> filled slots' j)
    /\ (forall j, j ∈ order -> j < length secs -> filled slots' j).
Proof.
  revert slots. induction order as [|i order IH]; intros slots Hal.
  - exists slots. split_and!; auto. intros j Hj. inversion Hj.
  - destruct (settle_ok slots i Hal) as (s1 & E1 & Hal1 & Hkeep1 & Hi1).
    destruct (IH s1 Hal1) as (s2 & E2 & Hal2 & Hkeep2 & Hord2).
    exists s2. cbn [fan_in]. rewrite E1. split_and!; auto.
    intros j Hj Hlt. apply elem_of_cons in Hj as [->|Hj]; auto.
Qed.

Lemma aligned_full (slots : list (option string)) :
  aligned c secs slots ->
  (forall j, j < length secs -> filled slots j) ->
  slots = map Some (map (section_html c) secs).
Proof.
  intros [Hlen Hal] Hfull. apply list_eq. intros j.
  rewrite !list_lookup_fmap.
  destruct (secs !! j) as [s|] eqn:Hs; cbn.
  - destruct (Hfull j) as [v Hv]; [eapply lookup_lt_Some; eassumption|].
    destruct (Hal j s Hs) as [H|H]; congruence.
  - apply lookup_ge_None. apply lookup_ge_None in Hs. lia.
Qed.

Lemma aligned_start : aligned c secs (replicate (length secs) None).
Proof.
  split; [apply length_replicate|].
  intros j s Hs. left. apply lookup_replicate_2.
  eapply lookup_lt_Some; eassumption.
Qed.

End FanInOk.

Lemma queries_succeed_spec (c : Server.connection) (secs : list Sql.section) :
  FanIn.queries_succeed c secs = true ->
  forall s, s ∈ secs -> Server.fails c (Sql.SelectProjects (Sql.s_id s)) = false.
Proof.
  unfold FanIn.queries_succeed. rewrite forallb_forall.
  intros H s Hs. apply list_elem_of_In in Hs.
  apply H in Hs. now apply negb_true_iff in Hs.
Qed.

Lemma complete_spec (order : list nat) (secs : list Sql.section) :
  FanIn.complete order secs = true ->
  forall j, j < length secs -> j ∈ order.
Proof.
  unfold FanIn.complete. rewrite forallb_forall.
  intros H j Hj. specialize (H j). rewrite in_seq in H.
  destruct (existsb_exists (Nat.eqb j) order) as [Hex _].
  destruct Hex as (k & Hk & Hjk); [apply H; lia|].
  apply Nat.eqb_eq in Hjk as ->. now apply list_elem_of_In.
Qed.

Lemma fulfilled_Some (l : list string) : Server.fulfilled (map Some l) = Some l.
Proof. induction l as [|x l IH]; cbn; [reflexivity | now rewrite IH]. Qed.

(** With every query succeeding and every project query completing, in
    whatever order, [Promise.all] fulfils with the fragments by position. *)
Lemma fan_in_fulfilled (c : Server.connection) (secs : list Sql.section)
      (order : list nat) :
  FanIn.queries_succeed c secs = true ->
  FanIn.complete order secs = true ->
  exists slots,
    Server.fan_in c secs (replicate (length secs) None) order = inr slots
    /\ Server.fulfilled slots = Some (map (FanIn.section_html c) secs).
Proof.
  intros Hok Hall.
  destruct (fan_in_ok c secs (queries_succeed_spec c secs Hok) order _
                      (aligned_start c secs))
    as (slots & E & Hal & _ & Hord).
  exists slots. split; [exact E|].
  rewrite (aligned_full c secs slots Hal); [apply fulfilled_Some|].
  intros j Hj. apply Hord; [|assumption].
  now apply (complete_spec order secs Hall).
Qed.

(** ** The composer *)

Section Composer.
Import Sql Server FanIn.
Context {html_parser : HtmlParser}.
Variable fs : filesystem.
Variable req : request.
Variable c : connection.
Variable dir text : string.
Hypothesis Hroot : path req = "/".
Hypothesis Hread : readFileSync fs (Path.join [dir; "index.html"]) = Some text.

Lemma staticHandler_root (order : list nat) :
  staticHandler fs req c order dir
  = let '(sent, o) :=
      sections_callback (parse text) (querySelector (parse text) "#sections") c order
    in (SelectSections :: sent, o).
Proof.
  unfold staticHandler. rewrite Hread.
  destruct (decide (path req = "/")); [reflexivity | contradiction].
Qed.

(** Every query succeeds and every project query completes: all
    statements are sent and the [then] callback runs on the fragments
    in section order. *)
Lemma staticHandler_composes (order : list nat) :
  fails c SelectSections = false ->
  queries_succeed c (sections (data c)) = true ->
  complete order (sections (data c)) = true ->
  staticHandler fs req c order dir
  = (SelectSections :: map (fun s => SelectProjects (s_id s)) (sections (data c)),
     respond (parse text) (querySelector (parse text) "#sections")
             (map (section_html c) (sections (data c)))).
Proof.
  intros Hsec Hok Hall. rewrite staticHandler_root.
  unfold sections_callback, query_sections. rewrite Hsec.
  destruct (fan_in_fulfilled c (sections (data c)) order Hok Hall)
    as (slots & -> & ->).
  reflexivity.
Qed.

(** The sections query fails: its callback throws before any project
    query is sent. *)
Lemma staticHandler_sections_fail (order : list nat) :
  fails c SelectSections = true ->
  staticHandler fs req c order dir = ([SelectSections], Uncaught TypeError).
Proof.
  intros Hsec. rewrite staticHandler_root.
  unfold sections_callback, query_sections. now rewrite Hsec.
Qed.

End Composer.

(** A project query that fails throws when its callback runs, whatever
    completed before it. *)
Lemma fan_in_fails (c : Server.connection) (secs : list Sql.section)
      (order : list nat) (slots : list (option string)) (i : nat) (s : Sql.section) :
  FanIn.failing_empty c secs slots ->
  i ∈ order ->
  secs !! i = Some s ->
  Server.fails c (Sql.SelectProjects (Sql.s_id s)) = true ->
  Server.fan_in c secs slots order = inl Server.TypeError.
Proof.
  intros Hinv Hi Hs Hfail. revert slots Hinv.
  induction order as [|k order IH]; intros slots [Hlen Hinv]; [inversion Hi|].
  cbn [Server.fan_in]. unfold Server.settle.
  destruct (secs !! k) as [sk|] eqn:Hk.
  - destruct (slots !! k) as [[v|]|] eqn:Hslot.
    + assert (k <> i).
      { intros ->. rewrite (Hinv i s Hs Hfail) in Hslot. discriminate. }
      apply elem_of_cons in Hi as [->|Hi]; [congruence|].
      apply IH; [assumption | now split].
    + unfold Server.projects_callback, Server.query_projects.
      destruct (Server.fails c (Sql.SelectProjects (Sql.s_id sk))) eqn:Hfk;
        [reflexivity|].
      assert (k <> i) by (intros ->; congruence).
      apply elem_of_cons in Hi as [->|Hi]; [congruence|].
      apply IH; [assumption|]. split; [now rewrite length_insert|].
      intros j sj Hj Hfj. rewrite list_lookup_insert_ne; [now apply (Hinv j sj)|].
      intros ->. congruence.
    + assert (k <> i).
      { intros ->. rewrite (Hinv i s Hs Hfail) in Hslot. discriminate. }
      apply elem_of_cons in Hi as [->|Hi]; [congruence|].
      apply IH; [assumption | now split].
  - assert (k <> i) by (intros ->; congruence).
    apply elem_of_cons in Hi as [->|Hi]; [congruence|].
    destruct (slots !! k) as [[?|]|]; apply IH; try assumption; now split.
Qed.

Lemma failing_empty_start (c : Server.connection) (secs : list Sql.section) :
  FanIn.failing_empty c secs (replicate (length secs) None).
Proof.
  split; [apply length_replicate|].
  intros j s Hs _. apply lookup_replicate_2. eapply lookup_lt_Some; eassumption.
Qed.

(** The middleware's own responses are a composed page (200) and the
    empty not-found (404): it never sends a server error. *)
Lemma respond_no_server_error `{Server.HtmlParser} doc el html :
  Server.server_error (Server.respond doc el html) = false.
Proof. destruct el; reflexivity. Qed.

Lemma staticHandler_no_server_error `{Server.HtmlParser} fs req c order dir :
  Server.server_error (Server.staticHandler fs req c order dir).2 = false.
Proof.
  unfold Server.staticHandler.
  destruct (decide (Server.path req = "/")); [|reflexivity].
  destruct (Server.readFileSync fs _); [|reflexivity].
  unfold Server.sections_callback.
  destruct (Server.query_sections c); [|reflexivity].
  destruct (Server.fan_in _ _ _ _); [reflexivity|].
  destruct (Server.fulfilled _); [|reflexivity].
  apply respond_no_server_error.
Qed.

Lemma route_no_server_error `{Server.HtmlParser} fs req c order :
  Server.server_error (Server.route fs req c order).2 = false.
Proof.
  unfold Server.route.
  repeat case_decide; try apply staticHandler_no_server_error.
  destruct (Server.existsSync fs _); [apply staticHandler_no_server_error|].
  reflexivity.
Qed.

Lemma middleware_ending `{Server.HtmlParser} fs req c order :
  Server.ending (Server.middleware fs req c order)
  = (Server.route fs req (Server.record_visit req c).2 order).2.
Proof.
  unfold Server.middleware.
  destruct (Server.record_visit req c) as [logged c'].
  cbn [snd]. now destruct (Server.route fs req c' order).
Qed.

Lemma middleware_issued `{Server.HtmlParser} fs req c order :
  Server.issued (Server.middleware fs req c order)
  = ((Server.record_visit req c).1
      ++ (Server.route fs req (Server.record_visit req c).2 order).1)%list.
Proof.
  unfold Server.middleware.
  destruct (Server.record_visit req c) as [logged c'].
  cbn [fst snd]. now destruct (Server.route fs req c' order).
Qed.

Lemma middleware_final `{Server.HtmlParser} fs req c order :
  Server.final (Server.middleware fs req c order)
  = Server.data (Server.record_visit req c).2.
Proof.
  unfold Server.middleware.
  destruct (Server.record_visit req c) as [logged c'].
  cbn [snd]. now destruct (Server.route fs req c' order).
Qed.

(** ** The first label of a hostname and the path of a tenant *)

Lemma split_nonempty (sep : ascii) (s : string) : Str.split sep s <> [].
Proof.
  destruct s as [|x s]; cbn; [discriminate|].
  destruct (Ascii.eqb x sep); [discriminate|].
  destruct (Str.split sep s); discriminate.
Qed.

(** The first piece of a split holds no separator, and what follows it
    in the text is nothing or starts with the separator. *)
Lemma split_hd (sep : ascii) (s : string) :
  exists rest,
    s = hd EmptyString (Str.split sep s) +:+ rest
    /\ Str.mem sep (hd EmptyString (Str.split sep s)) = false
    /\ (rest = EmptyString \/ exists r, rest = String sep r).
Proof.
  induction s as [|x s (rest & Hs & Hmem & Hrest)].
  - exists EmptyString. cbn. auto.
  - cbn [Str.split]. destruct (Ascii.eqb x sep) eqn:Hx.
    + apply Ascii.eqb_eq in Hx as ->. exists (String sep s). cbn. eauto.
    + destruct (Str.split sep s) as [|w ws] eqn:Hsplit.
      * now apply split_nonempty in Hsplit.
      * cbn [hd] in *. exists rest. split_and!.
        -- rewrite append_cons. now f_equal.
        -- cbn [Str.mem]. now rewrite Hx, Hmem.
        -- exact Hrest.
Qed.

Lemma split_plain (sep : ascii) (s : string) :
  Str.mem sep s = false -> Str.split sep s = [s].
Proof.
  induction s as [|x s IH]; [reflexivity|].
  cbn [Str.mem Str.split]. intros H. apply orb_false_iff in H as [Hx Hs].
  now rewrite Hx, (IH Hs).
Qed.

Lemma split_app_sep (sep : ascii) (a b : string) :
  Str.mem sep a = false ->
  Str.split sep (a +:+ String sep b) = a :: Str.split sep b.
Proof.
  induction a as [|x a IH].
  - intros _. rewrite append_nil_l. cbn [Str.split]. now rewrite Ascii.eqb_refl.
  - cbn [Str.mem]. intros H. apply orb_false_iff in H as [Hx Ha].
    rewrite append_cons. cbn [Str.split]. now rewrite Hx, (IH Ha).
Qed.

(** The label before the first dot is the domain, whatever follows. *)
Lemma domain_of_label (label rest ip path : string) :
  Str.mem "."%char label = false ->
  Server.domain {| Server.ip := ip;
                   Server.hostname := label +:+ String "."%char rest;
                   Server.path := path |} = label.
Proof.
  intros H. unfold Server.domain. cbn [Server.hostname].
  now rewrite split_app_sep.
Qed.

Lemma last_append (a b : string) :
  b <> EmptyString -> Str.last (a +:+ b) = Str.last b.
Proof.
  intros Hb. induction a as [|x a IH]; [reflexivity|].
  rewrite append_cons. cbn [Str.last]. rewrite IH.
  destruct (a +:+ b) eqn:E; [|reflexivity].
  destruct a; [rewrite append_nil_l in E; contradiction | discriminate E].
Qed.

Lemma last_plain (c : ascii) (s : string) :
  Str.mem c s = false -> Str.last s <> Some c.
Proof.
  induction s as [|x s IH]; [discriminate|].
  cbn [Str.mem]. intros H. apply orb_false_iff in H as [Hx Hs].
  destruct s as [|y s].
  - cbn. intros [= ->]. now rewrite Ascii.eqb_refl in Hx.
  - now apply IH.
Qed.

(** A name that is not empty and holds neither a slash nor a dot is
    joined to the apps root unchanged. *)
Lemma join_apps (name : string) :
  name <> EmptyString ->
  Str.mem "/"%char name = false ->
  Str.mem "."%char name = false ->
  Path.join ["apps"; name] = "apps/" +:+ name.
Proof.
  intros Hne Hslash Hdot. unfold Path.join.
  assert (Hfilter : filter (fun a : string => a <> EmptyString) ["apps"; name]
                    = ["apps"; name]).
  { rewrite filter_cons_True by discriminate.
    rewrite filter_cons_True by assumption. reflexivity. }
  rewrite Hfilter. cbn [Str.join].
  change ("apps" +:+ "/" +:+ name) with ("apps" +:+ String Path.slash name).
  unfold Path.normalize.
  destruct (decide ("apps" +:+ String Path.slash name = EmptyString)) as [E|_];
    [discriminate E|].
  assert (Hlast : Path.trailingSeparator ("apps" +:+ String Path.slash name) = false).
  { unfold Path.trailingSeparator.
    change ("apps" +:+ String Path.slash name) with ("apps/" +:+ name).
    rewrite last_append by assumption.
    pose proof (last_plain Path.slash name Hslash) as Hl.
    destruct (Str.last name) as [x|]; [|reflexivity].
    destruct (Ascii.eqb x Path.slash) eqn:Hx; [|reflexivity].
    apply Ascii.eqb_eq in Hx. congruence. }
  rewrite Hlast.
  assert (Hnorm : Path.normalizeString ("apps" +:+ String Path.slash name) true
                  = "apps/" +:+ name).
  { unfold Path.normalizeString.
    rewrite split_app_sep by reflexivity.
    unfold Path.slash. rewrite (split_plain _ _ Hslash). cbn [fold_left].
    assert (Hseg : Path.push_segment true ["apps"] name = [name; "apps"]).
    { unfold Path.push_segment.
      destruct (decide (name = EmptyString)); [contradiction|].
      destruct (decide (name = ".")) as [->|_]; [discriminate Hdot|].
      destruct (decide (name = "..")) as [->|_]; [discriminate Hdot|].
      reflexivity. }
    change (Path.push_segment true [] "apps") with ["apps"].
    rewrite Hseg. reflexivity. }
  change (negb (Path.isAbsolute ("apps" +:+ String Path.slash name))) with true.
  change (Path.isAbsolute ("apps" +:+ String Path.slash name)) with false.
  cbv zeta. rewrite Hnorm.
  destruct (decide ("apps/" +:+ name = EmptyString)) as [E|_]; [discriminate E|].
  reflexivity.
Qed.

(** * The homepage composer *)

(** C1. When the sections query and the project queries of a root
    request succeed and every project query completes, in whatever
    order, the composer gives the container the fragments of the
    sections joined by [<br/>] in the order the sections query returned
    them, and sends the page; with no section the content is the empty
    string. *)
Theorem homepage_joins_fragments_in_section_order
    `{Server.HtmlParser} (fs : Server.filesystem) (req : Server.request)
    (c : Server.connection) (dir text : string) (el : Server.element)
    (order : list nat) :
  Server.path req = "/" ->
  Server.readFileSync fs (Path.join [dir; "index.html"]) = Some text ->
  Server.querySelector (Server.parse text) "#sections" = Some el ->
  Server.fails c Sql.SelectSections = false ->
  FanIn.queries_succeed c (Sql.sections (Server.data c)) = true ->
  FanIn.complete order (Sql.sections (Server.data c)) = true ->
  Server.staticHandler fs req c order dir
  = (Sql.SelectSections
       :: map (fun s => Sql.SelectProjects (Sql.s_id s)) (Sql.sections (Server.data c)),
     Server.Sent 200 (Some "text/html")
       (Server.innerHTML
          (Server.set_content el
             (Str.join "<br/>"
                (map (fun s => Render.fragment s
                                 (Sql.select_projects (Server.data c) (Sql.s_id s)))
                     (Sql.sections (Server.data c))))
             (Server.parse text))))
  /\ (Sql.sections (Server.data c) = [] ->
      (Server.staticHandler fs req c order dir).2
      = Server.Sent 200 (Some "text/html")
          (Server.innerHTML (Server.set_content el EmptyString (Server.parse text)))).
Proof.
  intros Hroot Hread Hel Hsec Hok Hall.
  rewrite (staticHandler_composes fs req c dir text Hroot Hread order Hsec Hok Hall).
  unfold Server.respond. rewrite Hel. split; [reflexivity|].
  intros ->. reflexivity.
Qed.

(** The second project query completes before the first: the page still
    lists Tools before Games. *)
Lemma homepage_joins_fragments_in_section_order_witness :
  @Server.staticHandler Server.template_parser Scenario.disk Scenario.home
    (Scenario.healthy Scenario.two_sections) [1; 0] "public"
  = ([Sql.SelectSections; Sql.SelectProjects 1; Sql.SelectProjects 2],
     Server.Sent 200 (Some "text/html")
       (Server.template_html
          {| Server.before := "<html><body>";
             Server.inner :=
               Some (Str.join "<br/>"
                       [Render.fragment Scenario.tools [Scenario.widget; Scenario.gadget];
                        Render.fragment Scenario.games []]);
             Server.after := "</body></html>" |})).
Proof.
  exact (proj1 (@homepage_joins_fragments_in_section_order
                  Server.template_parser Scenario.disk Scenario.home
                  (Scenario.healthy Scenario.two_sections)
                  "public" Scenario.index_html tt [1; 0]
                  eq_refl eq_refl eq_refl eq_refl eq_refl eq_refl)).
Defined.

(** C2. The fragment of a section starts with the heading that holds
    its title; without projects it is that heading alone; with projects
    the heading is followed by one list that holds one item per project,
    in row order.  When titles and links hold no markup of their own,
    the text has no list tag in the first case and, in the second, one
    opening list tag and as many opening item tags as projects. *)
Theorem section_fragment_shape (s : Sql.section) (ps : list Sql.project) :
  Render.heading s = "<h2>" +:+ Js.to_string (Sql.s_title s) +:+ "</h2>"
  /\ (exists rest, Render.fragment s ps = Render.heading s +:+ rest)
  /\ (ps = [] -> Render.fragment s ps = Render.heading s)
  /\ (ps <> [] ->
      Render.fragment s ps
      = Render.heading s +:+ Render.ul_open
          +:+ Str.concat (map Render.list_item ps) +:+ Render.ul_close)
  /\ (Plain.section s -> Forall Plain.project ps ->
      Str.count Tag.ul (Render.fragment s ps) = (if ps is [] then 0 else 1)
      /\ Str.count Tag.li (Render.fragment s ps) = length ps).
Proof.
  split_and!.
  - reflexivity.
  - destruct ps as [|p ps].
    + exists EmptyString. now rewrite fragment_nil, append_nil_r.
    + eexists. apply fragment_cons.
  - intros ->. apply fragment_nil.
  - destruct ps as [|p ps]; [contradiction|]. intros _. apply fragment_cons.
  - apply count_fragment.
Qed.

Lemma section_fragment_shape_witness :
  Str.count Tag.ul (Render.fragment Scenario.tools [Scenario.widget; Scenario.gadget]) = 1
  /\ Str.count Tag.li (Render.fragment Scenario.tools [Scenario.widget; Scenario.gadget]) = 2.
Proof.
  apply (section_fragment_shape Scenario.tools [Scenario.widget; Scenario.gadget]).
  - reflexivity.
  - repeat constructor.
Defined.

(** ** One list item *)

Lemma truthy_nonempty (v : Js.value) :
  Js.truthy v = true <-> exists r, v = Some r /\ r <> EmptyString.
Proof.
  split.
  - destruct v as [[|x r]|]; try discriminate. intros _.
    eexists; split; [reflexivity | discriminate].
  - intros (r & -> & Hr). destruct r; [contradiction | reflexivity].
Qed.

Lemma count_affordances (p : Sql.project) :
  Plain.project p ->
  Str.count Tag.github (Render.list_item p)
  = (if Js.truthy (Sql.p_repo p) then 1 else 0)
  /\ Str.count Tag.link (Render.list_item p)
     = (if Js.truthy (Sql.p_url p) then 1 else 0).
Proof. intros (Ht & Hr & Hu). split; count_item p. Qed.

Lemma count_anchor_tags (p : Sql.project) :
  Plain.project p ->
  Str.count Tag.a (Render.list_item p)
  = (if Js.truthy (Sql.p_repo p) then 1 else 0)
    + (if Js.truthy (Sql.p_url p) then 1 else 0)
  /\ Str.count Tag.a_end (Render.list_item p)
     = (if Js.truthy (Sql.p_url p) then 1 else 0).
Proof. intros (Ht & Hr & Hu). split; count_item p. Qed.

(** C3. A list item is the project's title, then the github anchor
    exactly when the repo is a non-empty string, then the link anchor
    exactly when the url is a non-empty string; with neither it is the
    title alone.  For the section Tools with the single project Widget
    (url http://w, no repo) the container receives the text given in the
    specification. *)
Theorem project_item_affordances (p : Sql.project) :
  Render.list_item p
  = Render.li_open +:+ ("<span>" +:+ Js.to_string (Sql.p_title p) +:+ "</span>")
      +:+ Render.repo p +:+ Render.url p +:+ Render.li_close
  /\ (forall r, Sql.p_repo p = Some r -> r <> EmptyString ->
        Render.repo p = Render.github_tag r)
  /\ (Sql.p_repo p = None \/ Sql.p_repo p = Some EmptyString ->
        Render.repo p = EmptyString)
  /\ (forall u, Sql.p_url p = Some u -> u <> EmptyString ->
        Render.url p = Render.link_tag u)
  /\ (Sql.p_url p = None \/ Sql.p_url p = Some EmptyString ->
        Render.url p = EmptyString)
  /\ (Js.truthy (Sql.p_repo p) = false -> Js.truthy (Sql.p_url p) = false ->
        Render.list_item p = Render.li_open +:+ Render.title p +:+ Render.li_close)
  /\ (Plain.project p ->
        Str.count Tag.github (Render.list_item p)
        = (if Js.truthy (Sql.p_repo p) then 1 else 0)
        /\ Str.count Tag.link (Render.list_item p)
           = (if Js.truthy (Sql.p_url p) then 1 else 0))
  /\ Str.join "<br/>" [Render.fragment Scenario.tools [Scenario.widget]]
     = Scenario.tools_content
  /\ (forall (parser : Server.HtmlParser) fs req dir text el order,
        Server.path req = "/" ->
        Server.readFileSync fs (Path.join [dir; "index.html"]) = Some text ->
        Server.querySelector (Server.parse text) "#sections" = Some el ->
        FanIn.complete order [Scenario.tools] = true ->
        (Server.staticHandler fs req (Scenario.healthy Scenario.store) order dir).2
        = Server.Sent 200 (Some "text/html")
            (Server.innerHTML
               (Server.set_content el Scenario.tools_content (Server.parse text)))).
Proof.
  split_and!.
  - reflexivity.
  - intros r Hr Hne. unfold Render.repo. rewrite Hr.
    destruct r; [contradiction | reflexivity].
  - intros [Hr|Hr]; unfold Render.repo; now rewrite Hr.
  - intros u Hu Hne. unfold Render.url. rewrite Hu.
    destruct u; [contradiction | reflexivity].
  - intros [Hu|Hu]; unfold Render.url; now rewrite Hu.
  - intros Hr Hu. unfold Render.list_item, Render.repo, Render.url.
    now rewrite Hr, Hu.
  - apply count_affordances.
  - reflexivity.
  - intros parser fs req dir text el order Hroot Hread Hel Hall.
    rewrite (staticHandler_composes fs req (Scenario.healthy Scenario.store)
               dir text Hroot Hread order eq_refl eq_refl Hall).
    cbn [snd]. unfold Server.respond. rewrite Hel. reflexivity.
Qed.

Lemma project_item_affordances_witness :
  Render.list_item Scenario.gadget
  = Render.li_open +:+ Render.title Scenario.gadget
      +:+ Render.github_tag "http://github.com/g"
      +:+ Render.link_tag "http://g" +:+ Render.li_close
  /\ Str.count Tag.github (Render.list_item Scenario.widget) = 0
  /\ Str.count Tag.link (Render.list_item Scenario.widget) = 1
  /\ (@Server.staticHandler Server.template_parser Scenario.disk Scenario.home
        (Scenario.healthy Scenario.store) [0] "public").2
     = Server.Sent 200 (Some "text/html")
         ("<html><body>" +:+ Server.container_open +:+ Scenario.tools_content
            +:+ Server.container_close +:+ "</body></html>").
Proof.
  pose proof (project_item_affordances Scenario.gadget)
    as (Hitem & Hrepo & _ & Hurl & _).
  pose proof (project_item_affordances Scenario.widget)
    as (_ & _ & _ & _ & _ & _ & Hcount & _ & Hpage).
  split_and!.
  - rewrite Hitem.
    rewrite (Hrepo "http://github.com/g" eq_refl ltac:(discriminate)).
    rewrite (Hurl "http://g" eq_refl ltac:(discriminate)).
    reflexivity.
  - apply Hcount. repeat split.
  - apply Hcount. repeat split.
  - exact (Hpage Server.template_parser Scenario.disk Scenario.home "public"
                 Scenario.index_html tt [0] eq_refl eq_refl eq_refl eq_refl).
Defined.

(** C9. For a project with a non-empty repo the item holds the opening
    tag of the github anchor and nothing closes it: the link anchor, when
    there is one, follows that opening tag at once, and the item opens
    one anchor more than it closes. *)
Theorem github_anchor_left_open (p : Sql.project) (r : string) :
  Sql.p_repo p = Some r ->
  r <> EmptyString ->
  Render.github_tag r
  = "<a class=" +:+ Str.dq +:+ "github" +:+ Str.dq +:+ " href=" +:+ Str.dq +:+ r
      +:+ Str.dq +:+ " target=" +:+ Str.dq +:+ "_blank" +:+ Str.dq +:+ ">"
  /\ Render.list_item p
     = Render.li_open +:+ Render.title p +:+ Render.github_tag r
         +:+ Render.url p +:+ Render.li_close
  /\ (forall u, Sql.p_url p = Some u -> u <> EmptyString ->
        Render.list_item p
        = Render.li_open +:+ Render.title p +:+ Render.github_tag r
            +:+ Render.link_tag u +:+ Render.li_close)
  /\ (Plain.text r -> Str.count Tag.a_end (Render.github_tag r) = 0)
  /\ (Plain.project p ->
        Str.count Tag.a (Render.list_item p)
        = S (Str.count Tag.a_end (Render.list_item p))).
Proof.
  intros Hr Hne.
  assert (Htruthy : Js.truthy (Sql.p_repo p) = true).
  { apply truthy_nonempty. eauto. }
  assert (Hrepo : Render.repo p = Render.github_tag r).
  { unfold Render.repo. now rewrite Htruthy, Hr. }
  split_and!.
  - reflexivity.
  - unfold Render.list_item. now rewrite Hrepo.
  - intros u Hu Hune. unfold Render.list_item. rewrite Hrepo.
    unfold Render.url. rewrite Hu. destruct u; [contradiction | reflexivity].
  - intros Hplain. unfold_tags; unfold_render. normalise_text.
    count_tags. reflexivity.
  - intros Hp. destruct (count_anchor_tags p Hp) as [-> ->].
    now rewrite Htruthy.
Qed.

Lemma github_anchor_left_open_witness :
  Render.list_item Scenario.gadget
  = Render.li_open +:+ Render.title Scenario.gadget
      +:+ Render.github_tag "http://github.com/g"
      +:+ Render.link_tag "http://g" +:+ Render.li_close
  /\ Str.count Tag.a (Render.list_item Scenario.gadget) = 2
  /\ Str.count Tag.a_end (Render.list_item Scenario.gadget) = 1.
Proof.
  pose proof (github_anchor_left_open Scenario.gadget "http://github.com/g"
                eq_refl ltac:(discriminate))
    as (_ & _ & Hboth & _ & Hcount).
  split_and!.
  - apply Hboth; [reflexivity | discriminate].
  - rewrite Hcount by (repeat split). reflexivity.
  - reflexivity.
Defined.

(** * The tenant resolver *)

Lemma staticHandler_other_path `{Server.HtmlParser} fs req c order dir :
  Server.path req <> "/" ->
  Server.staticHandler fs req c order dir = ([], Server.Delegated dir).
Proof.
  intros Hpath. unfold Server.staticHandler.
  destruct (decide (Server.path req = "/")); [contradiction | reflexivity].
Qed.

(** C4. The domain is the text of the hostname before its first dot.
    When it is jessesolomon or localhost the request is handled from
    [public], whatever follows the first dot; otherwise it is handled
    from the path of that name under [apps] when that path exists, and
    answered with status 404 and an empty body when it does not. *)
Theorem tenant_resolution `{Server.HtmlParser} (fs : Server.filesystem)
    (req : Server.request) (c : Server.connection) (order : list nat) :
  let label := Server.domain req in
  (exists rest,
     Server.hostname req = label +:+ rest
     /\ Str.mem "."%char label = false
     /\ (rest = EmptyString \/ exists r, rest = String "."%char r))
  /\ (label = "jessesolomon" \/ label = "localhost" ->
      Server.route fs req c order = Server.staticHandler fs req c order "public")
  /\ (label <> "jessesolomon" -> label <> "localhost" ->
      Server.existsSync fs (Path.join ["apps"; label]) = true ->
      Server.route fs req c order
      = Server.staticHandler fs req c order (Path.join ["apps"; label]))
  /\ (label <> "jessesolomon" -> label <> "localhost" ->
      Server.existsSync fs (Path.join ["apps"; label]) = false ->
      Server.route fs req c order = ([], Server.Sent 404 None EmptyString)
      /\ Server.ending (Server.middleware fs req c order)
         = Server.Sent 404 None EmptyString)
  /\ (label <> EmptyString -> Str.mem "/"%char label = false ->
      Path.join ["apps"; label] = "apps/" +:+ label)
  /\ (forall dir, Server.path req <> "/" ->
      Server.staticHandler fs req c order dir = ([], Server.Delegated dir)).
Proof.
  intros label.
  destruct (split_hd "."%char (Server.hostname req)) as (rest & Hhost & Hdot & Hrest).
  fold (Server.domain req) in Hhost, Hdot. fold label in Hhost, Hdot.
  assert (Hmiss : label <> "jessesolomon" -> label <> "localhost" ->
                  Server.existsSync fs (Path.join ["apps"; label]) = false ->
                  forall c', Server.route fs req c' order
                             = ([], Server.Sent 404 None EmptyString)).
  { intros H1 H2 Hex c'. unfold Server.route. fold label.
    destruct (decide (label = "jessesolomon")); [contradiction|].
    destruct (decide (label = "localhost")); [contradiction|].
    now rewrite Hex. }
  split_and!.
  - exists rest. auto.
  - unfold Server.route. fold label. intros [->| ->]; reflexivity.
  - intros H1 H2 Hex. unfold Server.route. fold label.
    destruct (decide (label = "jessesolomon")); [contradiction|].
    destruct (decide (label = "localhost")); [contradiction|].
    now rewrite Hex.
  - intros H1 H2 Hex. split; [now apply Hmiss|].
    rewrite middleware_ending. now rewrite Hmiss.
  - intros Hne Hslash. now apply join_apps.
  - intros dir. apply staticHandler_other_path.
Qed.

Lemma tenant_resolution_witness :
  @Server.route Server.template_parser Scenario.disk Scenario.about
    (Scenario.healthy Scenario.store) []
  = ([], Server.Delegated "public")
  /\ (@Server.route Server.template_parser Scenario.disk Scenario.blog_home
        (Scenario.healthy Scenario.store) [0]).2
     = Server.Rejected Server.TypeError
  /\ Server.ending (@Server.middleware Server.template_parser Scenario.disk
                      Scenario.unknown (Scenario.healthy Scenario.store) [])
     = Server.Sent 404 None EmptyString
  /\ Path.join ["apps"; "blog"] = "apps/blog".
Proof.
  pose proof (@tenant_resolution Server.template_parser Scenario.disk Scenario.about
                (Scenario.healthy Scenario.store) [])
    as (_ & Hpublic & _ & _ & _ & Hother).
  pose proof (@tenant_resolution Server.template_parser Scenario.disk
                Scenario.blog_home (Scenario.healthy Scenario.store) [0])
    as (_ & _ & Happ & _ & Hjoin & _).
  pose proof (@tenant_resolution Server.template_parser Scenario.disk
                Scenario.unknown (Scenario.healthy Scenario.store) [])
    as (_ & _ & _ & Hmiss & _).
  split_and!.
  - rewrite Hpublic by (left; reflexivity).
    apply Hother. discriminate.
  - rewrite Happ by (discriminate || reflexivity). reflexivity.
  - apply Hmiss; (discriminate || reflexivity).
  - apply Hjoin; (discriminate || reflexivity).
Defined.

(** * The analytics recorder *)

Lemma filter_project_queries (secs : list Sql.section) :
  List.filter Sql.is_insert
    (map (fun s => Sql.SelectProjects (Sql.s_id s)) secs) = [].
Proof. induction secs as [|s secs IH]; [reflexivity | exact IH]. Qed.

(** The tenant resolver and the composer send only [select] statements. *)
Lemma route_sends_no_insert `{Server.HtmlParser} fs req c order :
  List.filter Sql.is_insert (Server.route fs req c order).1 = [].
Proof.
  assert (Hstatic : forall dir,
             List.filter Sql.is_insert (Server.staticHandler fs req c order dir).1 = []).
  { intros dir. unfold Server.staticHandler.
    destruct (decide (Server.path req = "/")); [|reflexivity].
    destruct (Server.readFileSync fs _); [|reflexivity].
    unfold Server.sections_callback.
    destruct (Server.query_sections c); [|reflexivity].
    destruct (Server.fan_in _ _ _ _); [|destruct (Server.fulfilled _)];
      cbn [fst List.filter Sql.is_insert]; apply filter_project_queries. }
  unfold Server.route. repeat case_decide; try apply Hstatic.
  destruct (Server.existsSync fs _); [apply Hstatic | reflexivity].
Qed.


(** Under a schema that declares the hash column unique, [insert ignore]
    would keep the stored hashes distinct. *)
Lemma insert_ignore_unique_hash (sch : Sql.schema) (hash url : string)
      (rows : list Sql.event) :
  In Sql.Hash (Sql.unique_keys sch) ->
  NoDup (map Sql.a_hash rows) ->
  NoDup (map Sql.a_hash (Sql.insert_ignore sch hash url rows)).
Proof.
  intros Hkey Hnodup. unfold Sql.insert_ignore.
  destruct (Sql.duplicate_key sch _ rows) eqn:Hdup; [assumption|].
  rewrite map_app. cbn [map Sql.a_hash].
  apply NoDup_app. split_and!; [assumption | | apply NoDup_singleton].
  intros h Hh Hin. apply list_elem_of_singleton in Hin as ->.
  apply list_elem_of_fmap in Hh as (r' & Heq & Hr').
  unfold Sql.duplicate_key in Hdup.
  assert (Hnone : existsb (fun k => existsb (fun r'' => String.eqb (Sql.field k r'')
              (Sql.field k {| Sql.a_hash := Str.take (Sql.hash_width sch) hash;
                              Sql.a_url := Str.take (Sql.url_width sch) url |})) rows)
            (Sql.unique_keys sch) = true); [|congruence].
  apply existsb_exists. exists Sql.Hash. split; [assumption|].
  apply existsb_exists. exists r'. split; [now apply list_elem_of_In|].
  cbn [Sql.field Sql.a_hash]. apply String.eqb_eq. congruence.
Qed.

(** C5, on the table of line 81.  The same visitor asks for the same
    page twice: the analytics table holds the same row twice. *)
Theorem duplicate_visit_stored_twice :
  let visit := {| Sql.a_hash := "203.0.113.7@jessesolomon.dev/about";
                  Sql.a_url := "jessesolomon.dev/about" |} in
  let first := @Server.middleware Server.template_parser Scenario.disk
                 Scenario.about (Scenario.healthy Scenario.store) [] in
  let second := @Server.middleware Server.template_parser Scenario.disk
                  Scenario.about (Scenario.healthy (Server.final first)) [] in
  Sql.analytics (Server.final first) = [visit]
  /\ Sql.analytics (Server.final second) = [visit; visit]
  /\ Sql.unique_keys Sql.analytics_schema = [].
Proof. cbv zeta. split_and!; reflexivity. Qed.

(** C6. A request from [::1] sends no analytics insert and leaves the
    stored rows as they were; any other request sends exactly one, for
    its address, hostname and path. *)
Theorem analytics_recorder_policy `{Server.HtmlParser} (fs : Server.filesystem)
    (req : Server.request) (c : Server.connection) (order : list nat) :
  (Server.ip req = "::1" ->
   List.filter Sql.is_insert (Server.issued (Server.middleware fs req c order)) = []
   /\ Server.final (Server.middleware fs req c order) = Server.data c)
  /\ (Server.ip req <> "::1" ->
      List.filter Sql.is_insert (Server.issued (Server.middleware fs req c order))
      = [Sql.InsertIgnoreAnalytics
           (Server.ip req +:+ "@" +:+ Server.hostname req +:+ Server.path req)
           (Server.hostname req +:+ Server.path req)]).
Proof.
  rewrite middleware_issued, middleware_final, List.filter_app, route_sends_no_insert.
  unfold Server.record_visit.
  split; intros Hip; destruct (decide (Server.ip req = "::1")); try contradiction.
  - split; reflexivity.
  - reflexivity.
Qed.

Lemma analytics_recorder_policy_witness :
  List.filter Sql.is_insert
    (Server.issued (@Server.middleware Server.template_parser Scenario.disk
                      Scenario.self (Scenario.healthy Scenario.store) [0])) = []
  /\ List.filter Sql.is_insert
       (Server.issued (@Server.middleware Server.template_parser Scenario.disk
                         Scenario.home (Scenario.healthy Scenario.store) [0]))
     = [Sql.InsertIgnoreAnalytics "203.0.113.7@jessesolomon.dev/" "jessesolomon.dev/"].
Proof.
  split.
  - apply (@analytics_recorder_policy Server.template_parser Scenario.disk
             Scenario.self (Scenario.healthy Scenario.store) [0]).
    reflexivity.
  - apply (@analytics_recorder_policy Server.template_parser Scenario.disk
             Scenario.home (Scenario.healthy Scenario.store) [0]).
    discriminate.
Defined.

(** C7, as the specification states it, fails: a visitor asks for the
    root of a tenant that does not exist.  The request is rejected with
    404, and the analytics insert has been sent and stored all the same. *)
Lemma rejected_request_is_recorded :
  let r := @Server.middleware Server.template_parser Scenario.disk
             Scenario.unknown (Scenario.healthy Scenario.store) [] in
  Server.existsSync Scenario.disk (Path.join ["apps"; Server.domain Scenario.unknown])
  = false
  /\ Server.ending r = Server.Sent 404 None EmptyString
  /\ Server.issued r
     = [Sql.InsertIgnoreAnalytics "203.0.113.7@nobody.jessesolomon.dev/"
                                  "nobody.jessesolomon.dev/"]
  /\ Sql.analytics (Server.final r)
     = [ {| Sql.a_hash := "203.0.113.7@nobody.jessesolomon.dev/";
            Sql.a_url := "nobody.jessesolomon.dev/" |} ].
Proof. cbv zeta. split_and!; reflexivity. Qed.

(** C7, amended.  The analytics recorder runs before the tenant is
    resolved: for a visitor other than [::1] the insert is the first
    statement sent, whether or not the hostname resolves, and a request
    whose tenant does not exist sends that insert and is then answered
    with 404. *)
Theorem analytics_precedes_resolution `{Server.HtmlParser} (fs : Server.filesystem)
    (req : Server.request) (c : Server.connection) (order : list nat) :
  Server.ip req <> "::1" ->
  let insert := Sql.InsertIgnoreAnalytics
                  (Server.ip req +:+ "@" +:+ Server.hostname req +:+ Server.path req)
                  (Server.hostname req +:+ Server.path req) in
  (exists rest,
     Server.issued (Server.middleware fs req c order) = insert :: rest
     /\ List.filter Sql.is_insert rest = [])
  /\ (Server.domain req <> "jessesolomon" -> Server.domain req <> "localhost" ->
      Server.existsSync fs (Path.join ["apps"; Server.domain req]) = false ->
      Server.issued (Server.middleware fs req c order) = [insert]
      /\ Server.ending (Server.middleware fs req c order)
         = Server.Sent 404 None EmptyString).
Proof.
  intros Hip insert.
  assert (Hlog : Server.record_visit req c
                 = ([insert], Server.query_insert c
                     (Server.ip req +:+ "@" +:+ Server.hostname req +:+ Server.path req)
                     (Server.hostname req +:+ Server.path req))).
  { unfold Server.record_visit.
    destruct (decide (Server.ip req = "::1")); [contradiction | reflexivity]. }
  rewrite middleware_issued, middleware_ending, Hlog. cbn [fst snd app].
  split.
  - eexists. split; [reflexivity | apply route_sends_no_insert].
  - intros H1 H2 Hex. unfold Server.route.
    destruct (decide (Server.domain req = "jessesolomon")); [contradiction|].
    destruct (decide (Server.domain req = "localhost")); [contradiction|].
    rewrite Hex. split; reflexivity.
Qed.

Lemma analytics_precedes_resolution_witness :
  Server.issued (@Server.middleware Server.template_parser Scenario.disk
                   Scenario.unknown (Scenario.healthy Scenario.store) [])
  = [Sql.InsertIgnoreAnalytics "203.0.113.7@nobody.jessesolomon.dev/"
                               "nobody.jessesolomon.dev/"]
  /\ Server.ending (@Server.middleware Server.template_parser Scenario.disk
                      Scenario.unknown (Scenario.healthy Scenario.store) [])
     = Server.Sent 404 None EmptyString.
Proof.
  apply (@analytics_precedes_resolution Server.template_parser Scenario.disk
           Scenario.unknown (Scenario.healthy Scenario.store) []);
    (discriminate || reflexivity).
Defined.

(** * Failures during composition *)

(** C8, as the specification states it, fails: every [select] fails on
    the connection.  The callback of the sections query throws; the
    middleware sends no server error and no response at all. *)
Lemma failed_query_sends_no_server_error :
  let r := @Server.middleware Server.template_parser Scenario.disk
             Scenario.home (Scenario.broken Scenario.store) [0] in
  Server.fails (Scenario.broken Scenario.store) Sql.SelectSections = true
  /\ Server.ending r = Server.Uncaught Server.TypeError
  /\ Server.server_error (Server.ending r) = false
  /\ Server.responded (Server.ending r) = false.
Proof. cbv zeta. split_and!; reflexivity. Qed.

(** C8, amended.  A failing query of the composition is not handled: the
    callback reads the absent rows and throws a TypeError that nothing
    catches.  This holds for the sections query and for any project
    query whose callback runs; no response is sent for the request, and
    the middleware never sends a server error of its own. *)
Theorem failed_query_is_uncaught `{Server.HtmlParser} (fs : Server.filesystem)
    (req : Server.request) (c : Server.connection) (dir text : string)
    (order : list nat) :
  Server.path req = "/" ->
  Server.readFileSync fs (Path.join [dir; "index.html"]) = Some text ->
  (Server.fails c Sql.SelectSections = true ->
   Server.staticHandler fs req c order dir
   = ([Sql.SelectSections], Server.Uncaught Server.TypeError))
  /\ (forall i s,
        Server.fails c Sql.SelectSections = false ->
        i ∈ order ->
        Sql.sections (Server.data c) !! i = Some s ->
        Server.fails c (Sql.SelectProjects (Sql.s_id s)) = true ->
        Server.staticHandler fs req c order dir
        = (Sql.SelectSections
             :: map (fun s => Sql.SelectProjects (Sql.s_id s))
                    (Sql.sections (Server.data c)),
           Server.Uncaught Server.TypeError))
  /\ (forall o, (Server.staticHandler fs req c order dir).2 = Server.Uncaught o ->
      Server.responded (Server.staticHandler fs req c order dir).2 = false)
  /\ Server.server_error (Server.ending (Server.middleware fs req c order)) = false.
Proof.
  intros Hroot Hread. split_and!.
  - intros Hsec.
    exact (staticHandler_sections_fail fs req c dir text Hroot Hread order Hsec).
  - intros i s Hsec Hi Hs Hfail.
    rewrite (staticHandler_root fs req c dir text Hroot Hread).
    unfold Server.sections_callback, Server.query_sections. rewrite Hsec.
    now rewrite (fan_in_fails c _ order _ i s (failing_empty_start c _) Hi Hs Hfail).
  - intros o ->. reflexivity.
  - rewrite middleware_ending. apply route_no_server_error.
Qed.

Lemma failed_query_is_uncaught_witness :
  @Server.staticHandler Server.template_parser Scenario.disk Scenario.home
    (Scenario.broken Scenario.store) [0] "public"
  = ([Sql.SelectSections], Server.Uncaught Server.TypeError)
  /\ @Server.staticHandler Server.template_parser Scenario.disk Scenario.home
       (Scenario.flaky Scenario.two_sections) [1; 0] "public"
     = ([Sql.SelectSections; Sql.SelectProjects 1; Sql.SelectProjects 2],
        Server.Uncaught Server.TypeError).
Proof.
  split.
  - apply (@failed_query_is_uncaught Server.template_parser Scenario.disk
             Scenario.home (Scenario.broken Scenario.store) "public"
             Scenario.index_html [0]); reflexivity.
  - apply (proj1 (proj2 (@failed_query_is_uncaught Server.template_parser
                           Scenario.disk Scenario.home
                           (Scenario.flaky Scenario.two_sections) "public"
                           Scenario.index_html [1; 0] eq_refl eq_refl))
                 1 Scenario.games);
      [reflexivity | | reflexivity | reflexivity].
    apply list_elem_of_here.
Defined.

(** C10. The template holds no element for [#sections]: the composer
    still sends the sections query and every project query, and once all
    of them have completed the [then] callback calls [set_content] on
    null and throws; no response is sent. *)
Theorem missing_container_rejects_after_fan_in `{Server.HtmlParser}
    (fs : Server.filesystem) (req : Server.request) (c : Server.connection)
    (dir text : string) (order : list nat) :
  Server.path req = "/" ->
  Server.readFileSync fs (Path.join [dir; "index.html"]) = Some text ->
  Server.querySelector (Server.parse text) "#sections" = None ->
  Server.fails c Sql.SelectSections = false ->
  FanIn.queries_succeed c (Sql.sections (Server.data c)) = true ->
  FanIn.complete order (Sql.sections (Server.data c)) = true ->
  Server.staticHandler fs req c order dir
  = (Sql.SelectSections
       :: map (fun s => Sql.SelectProjects (Sql.s_id s)) (Sql.sections (Server.data c)),
     Server.Rejected Server.TypeError)
  /\ Server.responded (Server.staticHandler fs req c order dir).2 = false.
Proof.
  intros Hroot Hread Hel Hsec Hok Hall.
  rewrite (staticHandler_composes fs req c dir text Hroot Hread order Hsec Hok Hall).
  unfold Server.respond. rewrite Hel. split; reflexivity.
Qed.

Lemma missing_container_rejects_after_fan_in_witness :
  @Server.staticHandler Server.template_parser Scenario.disk Scenario.blog_home
    (Scenario.healthy Scenario.two_sections) [1; 0] "apps/blog"
  = ([Sql.SelectSections; Sql.SelectProjects 1; Sql.SelectProjects 2],
     Server.Rejected Server.TypeError).
Proof.
  exact (proj1 (@missing_container_rejects_after_fan_in Server.template_parser
                  Scenario.disk Scenario.blog_home
                  (Scenario.healthy Scenario.two_sections) "apps/blog"
                  Scenario.bare_html [1; 0]
                  eq_refl eq_refl eq_refl eq_refl eq_refl eq_refl)).
Defined.

(** * Further properties of the middleware *)

(** ** The statements of a root request *)

(** X1. Fan-out: once the sections query of a root request has
    succeeded, one projects query per section has been sent, in section
    order, whichever of them complete or fail afterwards and in whatever
    order. *)
Theorem project_queries_sent_per_section `{Server.HtmlParser}
    (fs : Server.filesystem) (req : Server.request) (c : Server.connection)
    (dir text : string) (order : list nat) :
  Server.path req = "/" ->
  Server.readFileSync fs (Path.join [dir; "index.html"]) = Some text ->
  Server.fails c Sql.SelectSections = false ->
  (Server.staticHandler fs req c order dir).1
  = Sql.SelectSections
      :: map (fun s => Sql.SelectProjects (Sql.s_id s)) (Sql.sections (Server.data c))
  /\ length (Server.staticHandler fs req c order dir).1
     = S (length (Sql.sections (Server.data c))).
Proof.
  intros Hroot Hread Hsec.
  assert (E : (Server.staticHandler fs req c order dir).1
              = Sql.SelectSections
                  :: map (fun s => Sql.SelectProjects (Sql.s_id s))
                         (Sql.sections (Server.data c))).
  { rewrite (staticHandler_root fs req c dir text Hroot Hread).
    unfold Server.sections_callback, Server.query_sections. rewrite Hsec.
    destruct (Server.fan_in _ _ _ _); [reflexivity|].
    destruct (Server.fulfilled _); reflexivity. }
  split; [exact E|]. rewrite E. cbn [length]. now rewrite length_map.
Qed.

Lemma project_queries_sent_per_section_witness :
  (@Server.staticHandler Server.template_parser Scenario.disk Scenario.home
     (Scenario.flaky Scenario.two_sections) [] "public").1
  = [Sql.SelectSections; Sql.SelectProjects 1; Sql.SelectProjects 2].
Proof.
  exact (proj1 (@project_queries_sent_per_section Server.template_parser
                  Scenario.disk Scenario.home
                  (Scenario.flaky Scenario.two_sections) "public"
                  Scenario.index_html [] eq_refl eq_refl eq_refl)).
Defined.

(** ** A project query that never completes *)

Lemma settle_other (c : Server.connection) (secs : list Sql.section)
      (slots slots' : list (option string)) (i j : nat) :
  Server.settle c secs slots i = inr slots' -> j <> i -> slots' !! j = slots !! j.
Proof.
  unfold Server.settle. intros E Hne.
  destruct (secs !! i) as [s|]; [|now injection E as <-].
  destruct (slots !! i) as [[v|]|]; try (now injection E as <-).
  destruct (Server.projects_callback c s); [discriminate|].
  injection E as <-. now rewrite list_lookup_insert_ne by congruence.
Qed.

Lemma fan_in_other (c : Server.connection) (secs : list Sql.section)
      (order : list nat) (slots slots' : list (option string)) (j : nat) :
  Server.fan_in c secs slots order = inr slots' -> j ∉ order ->
  slots' !! j = slots !! j.
Proof.
  revert slots. induction order as [|i order IH]; intros slots E Hj.
  - now injection E as <-.
  - cbn [Server.fan_in] in E.
    destruct (Server.settle c secs slots i) as [e|s1] eqn:E1; [discriminate|].
    apply not_elem_of_cons in Hj as [Hne Hj].
    rewrite (IH s1 E Hj). eapply settle_other; eassumption.
Qed.

Lemma fulfilled_empty_slot (slots : list (option string)) (j : nat) :
  slots !! j = Some None -> Server.fulfilled slots = None.
Proof.
  revert j. induction slots as [|[v|] slots IH]; intros j Hj.
  - discriminate.
  - destruct j as [|j]; [discriminate|]. cbn in Hj.
    cbn [Server.fulfilled]. now rewrite (IH j Hj).
  - reflexivity.
Qed.

(** X2. When the project query of some section never completes, the
    request gets no response from the middleware: the promise of
    [Promise.all] stays pending, or a failing query has thrown. *)
Theorem incomplete_fan_in_sends_nothing `{Server.HtmlParser}
    (fs : Server.filesystem) (req : Server.request) (c : Server.connection)
    (dir text : string) (order : list nat) (j : nat) :
  Server.path req = "/" ->
  Server.readFileSync fs (Path.join [dir; "index.html"]) = Some text ->
  j < length (Sql.sections (Server.data c)) ->
  j ∉ order ->
  Server.responded (Server.staticHandler fs req c order dir).2 = false
  /\ (Server.fails c Sql.SelectSections = false ->
      FanIn.queries_succeed c (Sql.sections (Server.data c)) = true ->
      (Server.staticHandler fs req c order dir).2 = Server.Pending).
Proof.
  intros Hroot Hread Hj Hnot.
  rewrite (staticHandler_root fs req c dir text Hroot Hread).
  unfold Server.sections_callback, Server.query_sections.
  destruct (Server.fails c Sql.SelectSections); [split; [reflexivity | discriminate]|].
  destruct (Server.fan_in c _ _ order) as [e|slots] eqn:E.
  - split; [reflexivity|]. intros _ Hok.
    destruct (fan_in_ok c _ (queries_succeed_spec c _ Hok) order _
                (aligned_start c _)) as (slots & E' & _).
    congruence.
  - assert (Hempty : slots !! j = Some None).
    { rewrite (fan_in_other c _ order _ slots j E Hnot).
      now apply lookup_replicate_2. }
    rewrite (fulfilled_empty_slot slots j Hempty). split; reflexivity.
Qed.

Lemma incomplete_fan_in_sends_nothing_witness :
  (@Server.staticHandler Server.template_parser Scenario.disk Scenario.home
     (Scenario.healthy Scenario.two_sections) [0] "public").2
  = Server.Pending.
Proof.
  apply (@incomplete_fan_in_sends_nothing Server.template_parser Scenario.disk
           Scenario.home (Scenario.healthy Scenario.two_sections) "public"
           Scenario.index_html [0] 1); try reflexivity.
  - cbn. lia.
  - intros Hin. apply list_elem_of_singleton in Hin. discriminate.
Defined.

(** ** What a request does to the stored rows *)







(** ** The response does not depend on the analytics write *)





(** ** The hash names one visit *)




(** ** The path of a tenant stays under the apps root *)

Lemma mem_append (c : ascii) (a b : string) :
  Str.mem c (a +:+ b) = Str.mem c a || Str.mem c b.
Proof.
  induction a as [|x a IH]; [reflexivity|].
  rewrite append_cons. cbn [Str.mem]. rewrite IH. now rewrite orb_assoc.
Qed.

Lemma split_pieces_plain (c sep : ascii) (s : string) :
  Str.mem c s = false ->
  Forall (fun w => Str.mem c w = false) (Str.split sep s).
Proof.
  induction s as [|x s IH]; [repeat constructor|].
  cbn [Str.mem Str.split]. intros H. apply orb_false_iff in H as [Hx Hs].
  specialize (IH Hs). destruct (Ascii.eqb x sep).
  - constructor; [reflexivity | assumption].
  - destruct (Str.split sep s) as [|w ws]; [repeat constructor; cbn; now rewrite Hx|].
    inversion IH as [|? ? Hw Hws]; subst. constructor; [|assumption].
    cbn [Str.mem]. now rewrite Hx, Hw.
Qed.

(** Segments without a dot are neither the current nor the parent
    directory: the non-empty ones are kept, in order. *)
Lemma push_plain_segments (above : bool) (segs stack : list string) :
  Forall (fun w => Str.mem "."%char w = false) segs ->
  fold_left (Path.push_segment above) segs stack
  = (rev (List.filter (fun w => negb (String.eqb w EmptyString)) segs) ++ stack)%list.
Proof.
  intros Hsegs. revert stack.
  induction Hsegs as [|w segs Hw _ IH]; intros stack; [reflexivity|].
  cbn [fold_left List.filter]. rewrite IH. unfold Path.push_segment.
  destruct (decide (w = EmptyString)) as [->|Hne]; [reflexivity|].
  destruct (decide (w = ".")) as [->|_]; [discriminate Hw|].
  destruct (decide (w = "..")) as [->|_]; [discriminate Hw|].
  apply String.eqb_neq in Hne. rewrite Hne. cbn [negb rev].
  now rewrite <- app_assoc.
Qed.

Lemma join_slash_tail (first : string) (l : list string) :
  Forall (fun w => Str.mem "."%char w = false) l ->
  exists rest,
    Str.join "/" (first :: l) = first +:+ rest
    /\ Str.mem "."%char rest = false
    /\ (rest = EmptyString \/ exists r, rest = String "/"%char r).
Proof.
  intros Hl. revert first. induction Hl as [|w l Hw _ IH]; intros first.
  - exists EmptyString. cbn [Str.join]. rewrite append_nil_r. auto.
  - destruct (IH w) as (rest & E & Hrest & _).
    exists ("/" +:+ w +:+ rest). split_and!.
    + change (Str.join "/" (first :: w :: l))
        with (first +:+ "/" +:+ Str.join "/" (w :: l)).
      now rewrite E.
    + rewrite !mem_append. now rewrite Hw, Hrest.
    + right. eexists. reflexivity.
Qed.

Lemma rev_filter_plain (l : list string) :
  Forall (fun w => Str.mem "."%char w = false) l ->
  Forall (fun w => Str.mem "."%char w = false)
         (rev (rev (List.filter (fun w => negb (String.eqb w EmptyString)) l))).
Proof.
  intros Hl. rewrite rev_involutive. apply List.Forall_forall.
  intros w Hw. apply List.filter_In in Hw as [Hw _].
  revert w Hw. now apply List.Forall_forall.
Qed.

(** X7. Whatever the hostname, the path under which a tenant is looked
    up is [apps] or starts with [apps/], and holds no dot: a Host header
    cannot name the parent directory or leave the apps root. *)
Theorem tenant_path_stays_under_apps (req : Server.request) :
  exists rest,
    Path.join ["apps"; Server.domain req] = "apps" +:+ rest
    /\ Str.mem "."%char rest = false
    /\ (rest = EmptyString \/ exists r, rest = String "/"%char r).
Proof.
  destruct (split_hd "."%char (Server.hostname req)) as (_ & _ & Hdot & _).
  fold (Server.domain req) in Hdot. set (label := Server.domain req) in *.
  unfold Path.join.
  destruct (decide (label = EmptyString)) as [->|Hne].
  { exists EmptyString. split_and!; auto. }
  assert (Hfilter : filter (fun a : string => a <> EmptyString) ["apps"; label]
                    = ["apps"; label]).
  { rewrite filter_cons_True by discriminate.
    rewrite filter_cons_True by assumption. reflexivity. }
  rewrite Hfilter. cbn [Str.join].
  change ("apps" +:+ "/" +:+ label) with ("apps" +:+ String "/"%char label).
  unfold Path.normalize.
  destruct (decide ("apps" +:+ String "/"%char label = EmptyString)) as [E|_];
    [discriminate E|].
  change (negb (Path.isAbsolute ("apps" +:+ String "/"%char label))) with true.
  change (Path.isAbsolute ("apps" +:+ String "/"%char label)) with false.
  cbv zeta.
  assert (Hnorm : exists rest,
             Path.normalizeString ("apps" +:+ String "/"%char label) true
             = "apps" +:+ rest
             /\ Str.mem "."%char rest = false
             /\ (rest = EmptyString \/ exists r, rest = String "/"%char r)).
  { unfold Path.normalizeString, Path.slash.
    rewrite split_app_sep by reflexivity. cbn [fold_left].
    change (Path.push_segment true [] "apps") with ["apps"].
    pose proof (split_pieces_plain "."%char "/"%char label Hdot) as Hsegs.
    rewrite (push_plain_segments true _ ["apps"] Hsegs).
    rewrite rev_app_distr. cbn [rev app].
    apply join_slash_tail. now apply rev_filter_plain. }
  destruct Hnorm as (rest & -> & Hrest & Hshape).
  destruct (decide ("apps" +:+ rest = EmptyString)) as [E|_]; [discriminate E|].
  destruct (Path.trailingSeparator _).
  - exists (rest +:+ "/"). rewrite append_assoc. split_and!; [reflexivity | |].
    + rewrite mem_append. now rewrite Hrest.
    + right. destruct Hshape as [->|(r & ->)]; eexists; reflexivity.
  - exists rest. auto.
Qed.

(** ** When the middleware answers 404 *)

Lemma staticHandler_not_404 `{Server.HtmlParser} fs req c order dir ct body :
  (Server.staticHandler fs req c order dir).2 <> Server.Sent 404 ct body.
Proof.
  unfold Server.staticHandler.
  destruct (decide (Server.path req = "/")); [|discriminate].
  destruct (Server.readFileSync fs _); [|discriminate].
  unfold Server.sections_callback.
  destruct (Server.query_sections c); [|discriminate].
  destruct (Server.fan_in _ _ _ _); [discriminate|].
  destruct (Server.fulfilled _); [|discriminate].
  unfold Server.respond. destruct (Server.querySelector _ _); discriminate.
Qed.

(** X8. The middleware answers 404 exactly when the first label of the
    hostname is not reserved and no path of that name exists under the
    apps root; the response then has no body and no content type, and a
    resolved tenant never gets a 404 from the middleware itself. *)
Theorem not_found_iff_tenant_unresolved `{Server.HtmlParser}
    (fs : Server.filesystem) (req : Server.request) (c : Server.connection)
    (order : list nat) :
  (exists ct body,
     Server.ending (Server.middleware fs req c order) = Server.Sent 404 ct body)
  <-> (Server.domain req <> "jessesolomon"
       /\ Server.domain req <> "localhost"
       /\ Server.existsSync fs (Path.join ["apps"; Server.domain req]) = false)
      /\ Server.ending (Server.middleware fs req c order)
         = Server.Sent 404 None EmptyString.
Proof.
  rewrite middleware_ending. unfold Server.route.
  destruct (decide (Server.domain req = "jessesolomon")) as [E1|N1].
  { split; [|intros [(N & _) _]; contradiction].
    intros (ct & body & E). now apply staticHandler_not_404 in E. }
  destruct (decide (Server.domain req = "localhost")) as [E2|N2].
  { split; [|intros [(_ & N & _) _]; contradiction].
    intros (ct & body & E). now apply staticHandler_not_404 in E. }
  destruct (Server.existsSync fs _).
  - split; [|intros [(_ & _ & N) _]; discriminate].
    intros (ct & body & E). now apply staticHandler_not_404 in E.
  - split; [auto | intros _; eauto].
Qed.

Lemma not_found_iff_tenant_unresolved_witness :
  Server.ending (@Server.middleware Server.template_parser Scenario.disk
                   Scenario.unknown (Scenario.healthy Scenario.store) [])
  = Server.Sent 404 None EmptyString
  /\ ~ exists ct body,
         Server.ending (@Server.middleware Server.template_parser Scenario.disk
                          Scenario.blog_home (Scenario.healthy Scenario.store) [0])
         = Server.Sent 404 ct body.
Proof.
  split.
  - apply (@not_found_iff_tenant_unresolved Server.template_parser Scenario.disk
             Scenario.unknown (Scenario.healthy Scenario.store) []).
    exists None, EmptyString. reflexivity.
  - intros H.
    apply (@not_found_iff_tenant_unresolved Server.template_parser Scenario.disk
             Scenario.blog_home (Scenario.healthy Scenario.store) [0]) in H.
    destruct H as [(_ & _ & Hmiss) _]. discriminate Hmiss.
Defined.

(** ** Projects of no listed section *)

Lemma select_projects_kept (secs : list Sql.section) (ps : list Sql.project)
      (rows rows' : list Sql.event) (s : Sql.section) :
  s ∈ secs ->
  Sql.select_projects
    {| Sql.sections := secs;
       Sql.projects := filter (fun p => Sql.p_section p ∈ map Sql.s_id secs) ps;
       Sql.analytics := rows |} (Sql.s_id s)
  = Sql.select_projects
      {| Sql.sections := secs; Sql.projects := ps; Sql.analytics := rows' |}
      (Sql.s_id s).
Proof.
  intros Hs. unfold Sql.select_projects. cbn [Sql.projects].
  induction ps as [|p ps IH]; [reflexivity|].
  destruct (decide (Sql.p_section p = Sql.s_id s)) as [E|N].
  - rewrite (filter_cons_True (fun p => Sql.p_section p ∈ map Sql.s_id secs)).
    + rewrite !(filter_cons_True (fun p => Sql.p_section p = Sql.s_id s)) by assumption.
      now rewrite IH.
    + rewrite E. apply list_elem_of_fmap. eauto.
  - rewrite (filter_cons_False (fun p => Sql.p_section p = Sql.s_id s) p ps) by assumption.
    destruct (decide (Sql.p_section p ∈ map Sql.s_id secs)).
    + rewrite (filter_cons_True (fun p => Sql.p_section p ∈ map Sql.s_id secs))
        by assumption.
      now rewrite filter_cons_False by assumption.
    + now rewrite (filter_cons_False (fun p => Sql.p_section p ∈ map Sql.s_id secs))
        by assumption.
Qed.

Lemma fan_in_same_callbacks (c c' : Server.connection) (secs : list Sql.section)
      (order : list nat) (slots : list (option string)) :
  (forall s, s ∈ secs -> Server.projects_callback c' s = Server.projects_callback c s) ->
  Server.fan_in c' secs slots order = Server.fan_in c secs slots order.
Proof.
  intros Hcb. revert slots. induction order as [|i order IH]; intros slots;
    [reflexivity|].
  cbn [Server.fan_in].
  assert (E : Server.settle c' secs slots i = Server.settle c secs slots i).
  { unfold Server.settle. destruct (secs !! i) as [s|] eqn:Hs; [|reflexivity].
    rewrite (Hcb s) by (eapply list_elem_of_lookup_2; eassumption). reflexivity. }
  rewrite E. destruct (Server.settle c secs slots i); [reflexivity | apply IH].
Qed.

(** X9. A project whose section column names no stored section is never
    rendered: every request is handled as on the store with such
    projects removed, and the fragments of the page are the same. *)
Theorem orphan_projects_are_not_rendered `{Server.HtmlParser}
    (fs : Server.filesystem) (req : Server.request) (c : Server.connection)
    (order : list nat) :
  let listed p := Sql.p_section p ∈ map Sql.s_id (Sql.sections (Server.data c)) in
  let c' := {| Server.data :=
                 {| Sql.sections := Sql.sections (Server.data c);
                    Sql.projects := filter listed (Sql.projects (Server.data c));
                    Sql.analytics := Sql.analytics (Server.data c) |};
               Server.fails := Server.fails c |} in
  map (FanIn.section_html c') (Sql.sections (Server.data c))
  = map (FanIn.section_html c) (Sql.sections (Server.data c))
  /\ Server.route fs req c' order = Server.route fs req c order.
Proof.
  cbv zeta. destruct c as [[secs ps rows] f].
  cbn [Server.data Server.fails Sql.sections Sql.projects Sql.analytics].
  set (c := {| Server.data := {| Sql.sections := secs; Sql.projects := ps;
                                 Sql.analytics := rows |};
               Server.fails := f |}).
  set (c' := {| Server.data := {| Sql.sections := secs; Sql.projects := _;
                                  Sql.analytics := rows |};
                Server.fails := f |}).
  assert (Hsel : forall s, s ∈ secs ->
                 Sql.select_projects (Server.data c') (Sql.s_id s)
                 = Sql.select_projects (Server.data c) (Sql.s_id s)).
  { intros s Hs. now apply select_projects_kept. }
  split.
  - apply map_ext_in. intros s Hs. apply list_elem_of_In in Hs.
    unfold FanIn.section_html. now rewrite Hsel.
  - assert (Hstatic : forall dir, Server.staticHandler fs req c' order dir
                                  = Server.staticHandler fs req c order dir).
    { intros dir. unfold Server.staticHandler, Server.sections_callback,
        Server.query_sections.
      destruct (decide (Server.path req = "/")); [|reflexivity].
      destruct (Server.readFileSync fs _); [|reflexivity].
      cbn [Server.fails Server.data Sql.sections c c'].
      destruct (f Sql.SelectSections); [reflexivity|].
      rewrite (fan_in_same_callbacks c c' secs order); [reflexivity|].
      intros sec Hsec. unfold Server.projects_callback, Server.query_projects.
      cbn [Server.fails c c']. now rewrite (Hsel sec Hsec). }
    unfold Server.route. now rewrite !Hstatic.
Qed.

(** ** Breaks stand between fragments only *)

Lemma prefix_empty (s : string) : String.prefix EmptyString s = true.
Proof. now destruct s. Qed.

Lemma count_br_item (p : Sql.project) (rest : string) :
  Plain.project p ->
  Str.count "<br/>" (Render.list_item p +:+ rest) = Str.count "<br/>" rest.
Proof. intros (Ht & Hr & Hu). count_item p. Qed.

Lemma count_br_items (ps : list Sql.project) (rest : string) :
  Forall Plain.project ps ->
  Str.count "<br/>" (Str.concat (map Render.list_item ps) +:+ rest)
  = Str.count "<br/>" rest.
Proof.
  induction 1 as [|p ps Hp _ IH]; [reflexivity|].
  cbn [map]. rewrite concat_cons, append_assoc, count_br_item by assumption.
  exact IH.
Qed.

Lemma count_br_fragment (s : Sql.section) (ps : list Sql.project) (rest : string) :
  Plain.section s -> Forall Plain.project ps ->
  Str.count "<br/>" (Render.fragment s ps +:+ rest) = Str.count "<br/>" rest.
Proof.
  intros Hs Hps. unfold Plain.section in Hs. destruct ps as [|p ps].
  - rewrite fragment_nil. unfold_render. normalise_text. count_tags. reflexivity.
  - rewrite fragment_cons. unfold Render.heading, Render.ul_open, Str.dq.
    normalise_text. count_tags.
    rewrite count_br_items by assumption.
    unfold_render. normalise_text. count_tags. reflexivity.
Qed.

Lemma count_br_join (frags : list string) :
  (forall f rest, f ∈ frags -> Str.count "<br/>" (f +:+ rest) = Str.count "<br/>" rest) ->
  Str.count "<br/>" (Str.join "<br/>" frags) = pred (length frags).
Proof.
  induction frags as [|f frags IH]; intros Hf; [reflexivity|].
  destruct frags as [|g frags].
  - cbn [Str.join length pred]. rewrite <- (append_nil_r f).
    rewrite Hf by apply list_elem_of_here. reflexivity.
  - change (Str.join "<br/>" (f :: g :: frags))
      with (f +:+ "<br/>" +:+ Str.join "<br/>" (g :: frags)).
    rewrite Hf by apply list_elem_of_here.
    remember (Str.join "<br/>" (g :: frags)) as joined eqn:Ej.
    normalise_text. count_tags. rewrite prefix_empty. subst joined. rewrite IH.
    + reflexivity.
    + intros f' rest Hin. apply Hf. now apply list_elem_of_further.
Qed.

(** X10. For rows without markup of their own, the content given to the
    container holds one break fewer than there are sections: breaks
    stand between fragments, never before the first or after the last. *)
Theorem breaks_only_between_fragments (c : Server.connection) :
  Forall Plain.section (Sql.sections (Server.data c)) ->
  Forall Plain.project (Sql.projects (Server.data c)) ->
  Str.count "<br/>"
    (Str.join "<br/>" (map (FanIn.section_html c) (Sql.sections (Server.data c))))
  = pred (length (Sql.sections (Server.data c))).
Proof.
  intros Hsecs Hps. rewrite count_br_join; [now rewrite length_map|].
  intros f rest Hf. apply list_elem_of_fmap in Hf as (s & -> & Hs).
  unfold FanIn.section_html. apply count_br_fragment.
  - rewrite List.Forall_forall in Hsecs. apply Hsecs. now apply list_elem_of_In.
  - unfold Sql.select_projects. rewrite List.Forall_forall in *.
    intros p Hp. apply Hps. apply list_elem_of_In in Hp.
    apply list_elem_of_filter in Hp as [_ Hp]. now apply list_elem_of_In.
Qed.

Lemma breaks_only_between_fragments_witness :
  Str.count "<br/>"
    (Str.join "<br/>"
       (map (FanIn.section_html (Scenario.healthy Scenario.two_sections))
            [Scenario.tools; Scenario.games])) = 1.
Proof.
  apply (breaks_only_between_fragments (Scenario.healthy Scenario.two_sections)).
  - repeat constructor.
  - repeat constructor.
Defined.

(** * Startup *)

(** ** Reading one line of [.env] *)

Lemma all_append (f : ascii -> bool) (a b : string) :
  Env.all f (a +:+ b) = Env.all f a && Env.all f b.
Proof.
  induction a as [|x a IH]; [reflexivity|].
  rewrite append_cons. cbn [Env.all]. rewrite IH. now rewrite andb_assoc.
Qed.

Lemma all_weaken (f g : ascii -> bool) (s : string) :
  (forall c, f c = true -> g c = true) -> Env.all f s = true -> Env.all g s = true.
Proof.
  intros Hfg. induction s as [|x s IH]; [reflexivity|].
  cbn [Env.all]. intros H. apply andb_true_iff in H as [Hx Hs].
  now rewrite (Hfg x Hx), (IH Hs).
Qed.

Lemma word_not_equals (c : ascii) : Env.is_word c = true -> Ascii.eqb c "=" = false.
Proof.
  intros Hw. destruct (Ascii.eqb c "=") eqn:E; [|reflexivity].
  apply Ascii.eqb_eq in E as ->. discriminate Hw.
Qed.

Lemma word_not_space (c : ascii) : Env.is_word c = true -> Env.is_space c = false.
Proof.
  destruct c as [[] [] [] [] [] [] [] []]; cbn; intros H;
    try reflexivity; discriminate H.
Qed.

Lemma blank_facts (c : ascii) :
  Env.is_blank c = true ->
  Ascii.eqb c "=" = false /\ Env.is_word c = false /\ Env.is_space c = true
  /\ Env.is_dot c = true.
Proof.
  unfold Env.is_blank. intros H. apply orb_true_iff in H as [H|H];
    apply Ascii.eqb_eq in H as ->; repeat split.
Qed.

Lemma test_blank (s pad : string) :
  Env.all Env.is_blank pad = true ->
  Env.test Env.Nothing (pad +:+ s) = Env.test Env.Nothing s.
Proof.
  induction pad as [|x pad IH]; [reflexivity|].
  cbn [Env.all]. intros H. apply andb_true_iff in H as [Hx Hpad].
  destruct (blank_facts x Hx) as (E1 & E2 & E3 & _).
  rewrite append_cons. cbn [Env.test]. rewrite E1, E2, E3. now apply IH.
Qed.

Lemma test_word (st : Env.seen) (k s : string) :
  Env.all Env.is_word k = true -> k <> EmptyString ->
  Env.test st (k +:+ s) = Env.test Env.WordRun s.
Proof.
  revert st. induction k as [|x k IH]; intros st Hk Hne; [contradiction|].
  cbn [Env.all] in Hk. apply andb_true_iff in Hk as [Hx Hk].
  rewrite append_cons. cbn [Env.test]. rewrite (word_not_equals x Hx), Hx.
  destruct k as [|y k]; [reflexivity|]. now apply IH.
Qed.

Lemma test_gap (st : Env.seen) (pad rest : string) :
  st <> Env.Nothing ->
  Env.all Env.is_blank pad = true ->
  Env.head_is_dot rest = true ->
  Env.test st (pad +:+ String "="%char rest) = true.
Proof.
  revert st. induction pad as [|x pad IH]; intros st Hst Hpad Hrest.
  - rewrite append_nil_l. cbn [Env.test]. rewrite Ascii.eqb_refl.
    destruct st; [contradiction | |]; now rewrite Hrest.
  - cbn [Env.all] in Hpad. apply andb_true_iff in Hpad as [Hx Hpad].
    destruct (blank_facts x Hx) as (E1 & E2 & E3 & _).
    rewrite append_cons. cbn [Env.test]. rewrite E1, E2, E3.
    apply IH; [|assumption..]. destruct st; [contradiction | discriminate..].
Qed.

Lemma split_assignment_at (before rest : string) :
  Env.all (fun c => negb (Ascii.eqb c "=")) before = true ->
  Env.head_is_dot rest = true ->
  Env.split_assignment (before +:+ String "="%char rest)
  = (before, Some (Env.dot_run rest)).
Proof.
  intros Hb Hrest. induction before as [|x before IH].
  - rewrite append_nil_l. cbn [Env.split_assignment].
    now rewrite Ascii.eqb_refl, Hrest.
  - cbn [Env.all] in Hb. apply andb_true_iff in Hb as [Hx Hb].
    rewrite append_cons. cbn [Env.split_assignment].
    apply negb_true_iff in Hx. rewrite Hx. cbn [andb]. now rewrite (IH Hb).
Qed.

Lemma dot_run_all (s : string) : Env.all Env.is_dot s = true -> Env.dot_run s = s.
Proof.
  induction s as [|x s IH]; [reflexivity|].
  cbn [Env.all Env.dot_run]. intros H. apply andb_true_iff in H as [-> Hs].
  now rewrite (IH Hs).
Qed.

Lemma trim_left_space (pad s : string) :
  Env.all Env.is_space pad = true -> Env.trim_left (pad +:+ s) = Env.trim_left s.
Proof.
  induction pad as [|x pad IH]; [reflexivity|].
  cbn [Env.all]. intros H. apply andb_true_iff in H as [Hx Hpad].
  rewrite append_cons. cbn [Env.trim_left]. rewrite Hx. now apply IH.
Qed.

Lemma trim_left_keep (s : string) (c : ascii) :
  Env.first s = Some c -> Env.is_space c = false -> Env.trim_left s = s.
Proof.
  destruct s as [|x s]; [discriminate|]. cbn. intros [= ->] ->. reflexivity.
Qed.

Lemma trim_right_spaces (pad : string) :
  Env.all Env.is_space pad = true -> Env.trim_right pad = EmptyString.
Proof.
  induction pad as [|x pad IH]; [reflexivity|].
  cbn [Env.all Env.trim_right]. intros H. apply andb_true_iff in H as [Hx Hpad].
  now rewrite (IH Hpad), Hx.
Qed.

Lemma trim_right_space (s pad : string) :
  Env.all Env.is_space pad = true -> Env.trim_right (s +:+ pad) = Env.trim_right s.
Proof.
  intros Hpad. induction s as [|x s IH].
  - rewrite append_nil_l. now apply trim_right_spaces.
  - rewrite append_cons. cbn [Env.trim_right]. now rewrite IH.
Qed.

Lemma trim_right_cons (x : ascii) (s : string) :
  Env.trim_right (String x s)
  = match Env.trim_right s with
    | EmptyString => if Env.is_space x then EmptyString else String x EmptyString
    | kept => String x kept
    end.
Proof. reflexivity. Qed.

Lemma trim_right_keep (s : string) (c : ascii) :
  Str.last s = Some c -> Env.is_space c = false -> Env.trim_right s = s.
Proof.
  induction s as [|x s IH]; [discriminate|].
  destruct s as [|y s].
  - cbn. intros [= ->] ->. reflexivity.
  - intros Hlast Hc. rewrite trim_right_cons. cbn [Str.last] in Hlast.
    rewrite (IH Hlast Hc). reflexivity.
Qed.

Lemma first_append (a b : string) :
  a <> EmptyString -> Env.first (a +:+ b) = Env.first a.
Proof. destruct a; [contradiction | reflexivity]. Qed.

(** The text between two runs of spaces is what [trim] keeps. *)
Lemma trim_padded (pad1 s pad2 : string) :
  Env.all Env.is_space pad1 = true -> Env.all Env.is_space pad2 = true ->
  Env.trimmed s = true ->
  Env.trim (pad1 +:+ s +:+ pad2) = s.
Proof.
  intros H1 H2 Hs. unfold Env.trimmed in Hs.
  destruct (Env.first s) as [a|] eqn:Ha; [|discriminate].
  destruct (Str.last s) as [z|] eqn:Hz; [|discriminate].
  apply andb_true_iff in Hs as [Hsa Hsz].
  apply negb_true_iff in Hsa, Hsz.
  assert (Hne : s <> EmptyString) by (intros ->; discriminate).
  unfold Env.trim. rewrite trim_left_space by assumption.
  rewrite (trim_left_keep (s +:+ pad2) a); [| now rewrite first_append | assumption].
  rewrite trim_right_space by assumption. now apply (trim_right_keep s z).
Qed.

Lemma last_all (f : ascii -> bool) (s : string) (z : ascii) :
  Env.all f s = true -> Str.last s = Some z -> f z = true.
Proof.
  induction s as [|x s IH]; [discriminate|].
  cbn [Env.all]. intros H. apply andb_true_iff in H as [Hx Hs].
  destruct s as [|y s].
  - cbn. now intros [= <-].
  - cbn [Str.last]. now apply IH.
Qed.

Lemma last_nonempty (s : string) : s <> EmptyString -> exists z, Str.last s = Some z.
Proof.
  induction s as [|x s IH]; [contradiction|]. intros _.
  destruct s as [|y s]; [now exists x|]. cbn [Str.last]. apply IH. discriminate.
Qed.

Lemma word_trimmed (k : string) :
  Env.all Env.is_word k = true -> k <> EmptyString -> Env.trimmed k = true.
Proof.
  intros Hk Hne. unfold Env.trimmed.
  destruct (last_nonempty k Hne) as (z & Hz). rewrite Hz.
  destruct k as [|x k]; [contradiction|]. cbn [Env.first].
  rewrite (word_not_space z (last_all _ _ _ Hk Hz)).
  cbn [Env.all] in Hk. apply andb_true_iff in Hk as [Hx _].
  now rewrite (word_not_space x Hx).
Qed.

Lemma head_all_dot (s : string) :
  Env.all Env.is_dot s = true -> s <> EmptyString -> Env.head_is_dot s = true.
Proof.
  destruct s as [|x s]; [contradiction|]. cbn [Env.all Env.head_is_dot].
  intros H _. now apply andb_true_iff in H as [Hx _].
Qed.

(** X11. A line of ASCII text that holds a name of word characters, an
    equals sign and a value, with blanks around any of them, passes the
    filter and gives back the name as key and the value as written,
    equals signs inside the value included. *)
Theorem setting_line_reads_back (pad1 k pad2 pad3 v pad4 : string) :
  Env.ascii_text v = true ->
  Env.all Env.is_blank pad1 = true ->
  Env.all Env.is_blank pad2 = true ->
  Env.all Env.is_blank pad3 = true ->
  Env.all Env.is_blank pad4 = true ->
  Env.all Env.is_word k = true -> k <> EmptyString ->
  Env.all Env.is_dot v = true -> Env.trimmed v = true ->
  let line := pad1 +:+ k +:+ pad2 +:+ "=" +:+ pad3 +:+ v +:+ pad4 in
  Env.test Env.Nothing line = true /\ Env.pair line = (k, Some v).
Proof.
  intros _ H1 H2 H3 H4 Hk Hne Hv Htrim line.
  set (rest := pad3 +:+ v +:+ pad4).
  assert (Hblank_space : forall p, Env.all Env.is_blank p = true ->
                                   Env.all Env.is_space p = true).
  { intros p. apply all_weaken. intros c Hc. now destruct (blank_facts c Hc) as (_ & _ & ? & _). }
  assert (Hblank_dot : forall p, Env.all Env.is_blank p = true ->
                                 Env.all Env.is_dot p = true).
  { intros p. apply all_weaken. intros c Hc. now destruct (blank_facts c Hc) as (_ & _ & _ & ?). }
  assert (Hvne : v <> EmptyString) by (intros ->; discriminate Htrim).
  assert (Hrest : Env.all Env.is_dot rest = true).
  { unfold rest. rewrite !all_append. now rewrite Hv, !Hblank_dot. }
  assert (Hhead : Env.head_is_dot rest = true).
  { apply head_all_dot; [assumption|]. unfold rest.
    destruct pad3; [destruct v; [contradiction | discriminate] | discriminate]. }
  assert (Hline : line = (pad1 +:+ k +:+ pad2) +:+ String "="%char rest).
  { unfold line, rest. now rewrite !append_assoc. }
  split.
  - unfold line. rewrite test_blank by assumption.
    rewrite test_word by assumption. now apply test_gap.
  - unfold Env.pair. rewrite Hline, split_assignment_at; [| |assumption].
    + rewrite dot_run_all by assumption. cbn [option_map]. unfold rest.
      rewrite !trim_padded; auto using word_trimmed.
    + rewrite !all_append. apply andb_true_iff. split; [|apply andb_true_iff; split].
      * revert H1. apply all_weaken. intros c Hc.
        destruct (blank_facts c Hc) as (-> & _). reflexivity.
      * revert Hk. apply all_weaken. intros c Hc.
        now rewrite (word_not_equals c Hc).
      * revert H2. apply all_weaken. intros c Hc.
        destruct (blank_facts c Hc) as (-> & _). reflexivity.
Qed.

Lemma setting_line_reads_back_witness :
  Env.pair ("  database_password = a=b ") = ("database_password", Some "a=b").
Proof.
  apply (setting_line_reads_back "  " "database_password" " " " " "a=b" " ");
    (discriminate || reflexivity).
Defined.

(** ** Windows line ends *)

Lemma head_is_dot_cr (s : string) :
  Env.head_is_dot (s +:+ String Env.CR EmptyString) = Env.head_is_dot s.
Proof. destruct s; reflexivity. Qed.

Lemma dot_run_cr (s : string) :
  Env.dot_run (s +:+ String Env.CR EmptyString) = Env.dot_run s.
Proof.
  induction s as [|x s IH]; [reflexivity|].
  rewrite append_cons. cbn [Env.dot_run]. now rewrite IH.
Qed.

Lemma test_cr (st : Env.seen) (s : string) :
  Env.test st (s +:+ String Env.CR EmptyString) = Env.test st s.
Proof.
  revert st. induction s as [|x s IH]; intros st; [now destruct st|].
  rewrite append_cons. cbn [Env.test]. rewrite head_is_dot_cr, !IH. reflexivity.
Qed.

Lemma split_assignment_cr (s : string) :
  Env.split_assignment (s +:+ String Env.CR EmptyString)
  = match Env.split_assignment s with
    | (k, Some v) => (k, Some v)
    | (k, None) => (k +:+ String Env.CR EmptyString, None)
    end.
Proof.
  induction s as [|x s IH]; [reflexivity|].
  rewrite append_cons. cbn [Env.split_assignment].
  rewrite head_is_dot_cr, dot_run_cr, IH.
  destruct (Ascii.eqb x "=" && Env.head_is_dot s); [reflexivity|].
  destruct (Env.split_assignment s) as [k [v|]]; reflexivity.
Qed.

Lemma trim_left_append (s pad : string) :
  Env.all Env.is_space pad = true ->
  Env.trim_left (s +:+ pad)
  = match Env.trim_left s with
    | EmptyString => EmptyString
    | kept => kept +:+ pad
    end.
Proof.
  intros Hpad. induction s as [|x s IH].
  - rewrite append_nil_l. cbn [Env.trim_left].
    clear -Hpad. induction pad as [|y pad IH]; [reflexivity|].
    cbn [Env.all] in Hpad. apply andb_true_iff in Hpad as [Hy Hpad].
    cbn [Env.trim_left]. rewrite Hy. now apply IH.
  - rewrite append_cons. cbn [Env.trim_left].
    destruct (Env.is_space x); [exact IH | reflexivity].
Qed.

Lemma trim_append_space (s pad : string) :
  Env.all Env.is_space pad = true -> Env.trim (s +:+ pad) = Env.trim s.
Proof.
  intros Hpad. unfold Env.trim. rewrite trim_left_append by assumption.
  destruct (Env.trim_left s) as [|x kept]; [reflexivity|].
  now apply trim_right_space.
Qed.

(** A carriage return at the end of a line changes neither whether the
    line passes the filter nor the pair read from it. *)
Lemma pair_cr (s : string) :
  Env.pair (s +:+ String Env.CR EmptyString) = Env.pair s.
Proof.
  unfold Env.pair. rewrite split_assignment_cr.
  destruct (Env.split_assignment s) as [k [v|]]; [reflexivity|].
  now rewrite trim_append_space.
Qed.

Lemma lines_nonempty (s : string) : Env.lines s <> [].
Proof.
  destruct s as [|x s]; cbn; [discriminate|].
  destruct (Ascii.eqb x Env.LF); [discriminate|].
  destruct (Env.lines s); discriminate.
Qed.

(** The lines of a text and of the same text with Windows line ends
    agree, up to a carriage return at the end of a line.  The second
    part is the same fact for what follows a line feed. *)
Lemma lines_windows (t : string) :
  Str.mem Env.CR t = false ->
  let same a b := a = b \/ a = b +:+ String Env.CR EmptyString in
  Forall2 same (Env.lines (Env.windows t)) (Env.lines t)
  /\ Forall2 same
       match Env.windows t with
       | String d rest' =>
           if Ascii.eqb d Env.CR then Env.lines rest' else Env.lines (Env.windows t)
       | EmptyString => Env.lines (Env.windows t)
       end
       (Env.lines t).
Proof.
  intros Hcr same. induction t as [|c t IH].
  - split; repeat constructor.
  - cbn [Str.mem] in Hcr. apply orb_false_iff in Hcr as [Hc Ht].
    destruct (IH Ht) as [IH1 IH2]. clear IH.
    cbn [Env.windows]. destruct (Ascii.eqb c Env.LF) eqn:Hlf.
    + assert (Htail : Env.lines (String c t) = EmptyString :: Env.lines t).
      { cbn [Env.lines]. rewrite Hlf. destruct t as [|d t']; [reflexivity|].
        cbn [Str.mem] in Ht. apply orb_false_iff in Ht as [-> _]. reflexivity. }
      rewrite Htail.
      assert (Hwin : Env.lines (String Env.LF (Env.windows t))
                     = EmptyString
                         :: match Env.windows t with
                            | String d rest' =>
                                if Ascii.eqb d Env.CR then Env.lines rest'
                                else Env.lines (Env.windows t)
                            | EmptyString => Env.lines (Env.windows t)
                            end).
      { reflexivity. }
      split.
      * change (Env.lines (String Env.CR (String Env.LF (Env.windows t))))
          with (match Env.lines (String Env.LF (Env.windows t)) with
                | [] => [String Env.CR EmptyString]
                | w :: ws => String Env.CR w :: ws
                end).
        rewrite Hwin. constructor; [now right | exact IH2].
      * change (Ascii.eqb Env.CR Env.CR) with true. cbv iota.
        rewrite Hwin. constructor; [now left | exact IH2].
    + assert (Hboth : Forall2 same (Env.lines (String c (Env.windows t)))
                                   (Env.lines (String c t))).
      { cbn [Env.lines]. rewrite Hlf.
        destruct (Env.lines (Env.windows t)) as [|w ws] eqn:E1;
          [now apply lines_nonempty in E1|].
        destruct (Env.lines t) as [|w' ws'] eqn:E2;
          [now apply lines_nonempty in E2|].
        inversion IH1 as [|? ? ? ? Hw Hws]; subst.
        constructor; [|assumption].
        destruct Hw as [->| ->]; [now left | now right]. }
      split; [exact Hboth|]. now rewrite Hc.
Qed.

Lemma pairs_same_lines (l1 l2 : list string) :
  Forall2 (fun a b => a = b \/ a = b +:+ String Env.CR EmptyString) l1 l2 ->
  map Env.pair (List.filter (Env.test Env.Nothing) l1)
  = map Env.pair (List.filter (Env.test Env.Nothing) l2).
Proof.
  induction 1 as [|a b l1 l2 Hab _ IH]; [reflexivity|].
  assert (Htest : Env.test Env.Nothing a = Env.test Env.Nothing b)
    by (destruct Hab as [->| ->]; [reflexivity | apply test_cr]).
  assert (Hpair : Env.pair a = Env.pair b)
    by (destruct Hab as [->| ->]; [reflexivity | apply pair_cr]).
  cbn [List.filter]. rewrite Htest.
  destruct (Env.test Env.Nothing b); cbn [map]; now rewrite ?Hpair, IH.
Qed.

Lemma ascii_text_windows (t : string) :
  Env.ascii_text (Env.windows t) = Env.ascii_text t.
Proof.
  induction t as [|c t IH]; [reflexivity|].
  cbn [Env.windows]. destruct (Ascii.eqb c Env.LF) eqn:Hlf.
  - apply Ascii.eqb_eq in Hlf as ->. cbn [Env.ascii_text]. now rewrite IH.
  - cbn [Env.ascii_text]. now rewrite IH.
Qed.

(** X12. A settings file of ASCII text saved with Windows line ends
    loads as the same file with Unix line ends: the same pairs are read,
    and [env] settles the same way. *)
Theorem windows_line_ends_load_the_same (JSON_parse : string -> option Json.value)
    (fs fs' : Server.filesystem) (text : string) :
  Env.ascii_text text = true ->
  Str.mem Env.CR text = false ->
  Server.existsSync fs ".env" = true ->
  Server.existsSync fs' ".env" = true ->
  Server.readFileSync fs ".env" = Some text ->
  Server.readFileSync fs' ".env" = Some (Env.windows text) ->
  Env.pairs (Env.windows text) = Env.pairs text
  /\ Env.env JSON_parse fs' = Env.env JSON_parse fs.
Proof.
  intros _ Hcr Hex Hex' Hread Hread'.
  assert (Hpairs : Env.pairs (Env.windows text) = Env.pairs text).
  { unfold Env.pairs. apply pairs_same_lines. now apply lines_windows. }
  split; [exact Hpairs|].
  unfold Env.env. now rewrite Hex, Hex', Hread, Hread', ascii_text_windows, Hpairs.
Qed.

Lemma windows_line_ends_load_the_same_witness :
  Env.pairs Boot.dev_env_crlf
  = [("database_name", Some (Str.dq +:+ "site" +:+ Str.dq));
     ("database_password", Some (Str.dq +:+ "a=b" +:+ Str.dq));
     ("port", Some "8080")].
Proof.
  exact (proj1 (windows_line_ends_load_the_same Boot.parse_json
                  (Boot.disk_with Boot.dev_env)
                  (Boot.disk_with Boot.dev_env_crlf) Boot.dev_env
                  eq_refl eq_refl eq_refl eq_refl eq_refl eq_refl)).
Defined.

(** ** The [env] object *)












(** ** From the settings file to the listeners *)













(** ** Lines that define nothing *)

Lemma test_no_equals (st : Env.seen) (s : string) :
  Str.mem "="%char s = false -> Env.test st s = false.
Proof.
  revert st. induction s as [|x s IH]; intros st; [reflexivity|].
  cbn [Str.mem Env.test]. intros H. apply orb_false_iff in H as [Hx Hs].
  rewrite Hx. destruct (Env.is_word x); [now apply IH|].
  destruct (Env.is_space x); now apply IH.
Qed.

Lemma test_empty_value (st : Env.seen) (before tail : string) :
  Str.mem "="%char before = false ->
  Env.head_is_dot tail = false ->
  Env.test Env.Nothing tail = false ->
  Env.test st (before +:+ String "="%char tail) = false.
Proof.
  intros Hb Hhead Htail. revert st.
  induction before as [|x before IH]; intros st.
  - rewrite append_nil_l. cbn [Env.test]. rewrite Ascii.eqb_refl.
    destruct st; now rewrite ?Hhead, Htail.
  - cbn [Str.mem] in Hb. apply orb_false_iff in Hb as [Hx Hb].
    rewrite append_cons. cbn [Env.test]. rewrite Hx.
    destruct (Env.is_word x); [now apply IH|].
    destruct (Env.is_space x); now apply IH.
Qed.

(** X17. Lines of ASCII text that define nothing are dropped without an
    error: a line without an equals sign, such as a comment or a blank
    line, and a line whose only equals sign ends it, with or without a
    carriage return after it.  A key written with an empty value is
    thus not defined at all. *)
Theorem lines_without_value_are_skipped (line : string) :
  Env.ascii_text line = true ->
  (Str.mem "="%char line = false -> Env.test Env.Nothing line = false)
  /\ (forall name,
        Str.mem "="%char name = false ->
        line = name +:+ "=" \/ line = name +:+ "=" +:+ String Env.CR EmptyString ->
        Env.test Env.Nothing line = false).
Proof.
  intros _. split.
  - apply test_no_equals.
  - intros name Hname [->| ->].
    + now apply (test_empty_value Env.Nothing name EmptyString).
    + now apply (test_empty_value Env.Nothing name (String Env.CR EmptyString)).
Qed.

Lemma lines_without_value_are_skipped_witness :
  Env.test Env.Nothing "# local database" = false
  /\ Env.test Env.Nothing "database_name=" = false.
Proof.
  split.
  - apply (lines_without_value_are_skipped "# local database"); reflexivity.
  - apply (proj2 (lines_without_value_are_skipped "database_name=" eq_refl)
                 "database_name"); [reflexivity | now left].
Defined.
